(** * Verification of the serial-input extension (src/extensions/serial-input-python/main.py)

    Shallow embedding of the line decoder [parse_pm100_line], the reader loop
    [_reader_loop], the command dispatcher [handle_command] and the message path
    [handle_message]/[main].  Python text is modelled as [list ascii], raw bytes
    as [list Byte.byte], Python floats as the kernel's binary64 floats. *)

From Stdlib Require Import Ascii String ZArith Lia Bool List.
From Stdlib Require Import Floats.
From Stdlib Require Import DecimalString.
Import ListNotations.

Open Scope char_scope.

(** ** Line decoder: [parse_pm100_line] *)
Module Decoder.

(** [raw.decode("ascii", errors="ignore")]: bytes >= 0x80 are dropped. *)
Definition ascii_decode_ignore (raw : list Byte.byte) : list ascii :=
  map ascii_of_byte (filter (fun b => Nat.ltb (Byte.to_nat b) 128) raw).

(** [str.isspace] on an ASCII character: \t \n \v \f \r, \x1c-\x1f and space. *)
Definition py_isspace (c : ascii) : bool :=
  let n := nat_of_ascii c in
  (Nat.leb 9 n && Nat.leb n 13) || (Nat.leb 28 n && Nat.leb n 32).

Fixpoint lstrip (s : list ascii) : list ascii :=
  match s with
  | c :: r => if py_isspace c then lstrip r else s
  | [] => []
  end.

(** [str.strip()] with no argument. *)
Definition strip (s : list ascii) : list ascii := rev (lstrip (rev (lstrip s))).

Fixpoint split_ws_aux (cur : list ascii) (s : list ascii) : list (list ascii) :=
  match s with
  | [] => match cur with [] => [] | _ => [rev cur] end
  | c :: r =>
      if py_isspace c then
        match cur with
        | [] => split_ws_aux [] r
        | _ => rev cur :: split_ws_aux [] r
        end
      else split_ws_aux (c :: cur) r
  end.

(** [str.split()] with no argument: maximal runs of non-whitespace. *)
Definition py_split (s : list ascii) : list (list ascii) := split_ws_aux [] s.

(** [["".join(parts[i:i+4]) for i in range(0, len(parts), 4)]] *)
Fixpoint group4 (parts : list (list ascii)) : list (list ascii) :=
  match parts with
  | a :: b :: c :: d :: r => (a ++ b ++ c ++ d) :: group4 r
  | [] => []
  | _ => [List.concat parts]
  end.

Definition hex_digit_value (c : ascii) : option Z :=
  let n := Z.of_nat (nat_of_ascii c) in
  if (48 <=? n)%Z && (n <=? 57)%Z then Some (n - 48)%Z
  else if (97 <=? n)%Z && (n <=? 102)%Z then Some (n - 87)%Z
  else if (65 <=? n)%Z && (n <=? 70)%Z then Some (n - 55)%Z
  else None.

(** Digits of [int(s, 16)] after the first one: single underscores may
    separate digits, no trailing underscore. *)
Fixpoint digits_us (acc : Z) (prev_us : bool) (s : list ascii) : option Z :=
  match s with
  | [] => if prev_us then None else Some acc
  | c :: r =>
      if Ascii.eqb c "_" then
        if prev_us then None else digits_us acc true r
      else
        match hex_digit_value c with
        | Some d => digits_us (acc * 16 + d)%Z false r
        | None => None
        end
  end.

(** Sign of [int(s, 16)]: an optional [-] or [+]. *)
Definition take_sign (s1 : list ascii) : Z * list ascii :=
  match s1 with
  | c :: r =>
      if Ascii.eqb c "-" then ((-1)%Z, r)
      else if Ascii.eqb c "+" then (1%Z, r) else (1%Z, s1)
  | [] => (1%Z, [])
  end.

(** Base prefix of [int(s, 16)]: [0x] or [0X], then at most one underscore. *)
Definition skip_hex_prefix (s2 : list ascii) : list ascii :=
  match s2 with
  | z :: x :: r =>
      if Ascii.eqb z "0" && (Ascii.eqb x "x" || Ascii.eqb x "X") then
        match r with
        | u :: r' => if Ascii.eqb u "_" then r' else r
        | [] => r
        end
      else s2
  | _ => s2
  end.

(** Python's [int(s, 16)] on an ASCII string (CPython [PyLong_FromString]):
    surrounding whitespace, an optional sign, an optional [0x]/[0X] prefix
    followed by at most one underscore, then hex digits with single
    underscores between them.  [None] stands for the [ValueError]. *)
Definition py_int_base16 (s0 : list ascii) : option Z :=
  let '(sign, s2) := take_sign (strip s0) in
  match skip_hex_prefix s2 with
  | c :: r =>
      match hex_digit_value c with
      | Some d => option_map (Z.mul sign) (digits_us d false r)
      | None => None
      end
  | [] => None
  end.

(** [str(i)] for a natural number. *)
Definition str_of_nat (n : nat) : list ascii :=
  list_ascii_of_string (NilEmpty.string_of_uint (Nat.to_uint n)).

(** The loop over [parts]: [None] as soon as one token fails. *)
Fixpoint parse_words (parts : list (list ascii)) : option (list Z) :=
  match parts with
  | [] => Some []
  | p :: ps =>
      let token := strip p in
      if Nat.ltb (length token) 4 then None
      else
        let token := if Nat.ltb 4 (length token)
                     then skipn (length token - 4) token else token in
        match py_int_base16 token with
        | None => None
        | Some w => option_map (cons w) (parse_words ps)
        end
  end.

(** [{str(i): w for i, w in enumerate(words)}], in insertion order. *)
Fixpoint enumerate_from (i : nat) (ws : list Z) : list (list ascii * Z) :=
  match ws with
  | [] => []
  | w :: r => (str_of_nat i, w) :: enumerate_from (S i) r
  end.

(** The dictionary [{"values": {...}}] returned by the decoder. *)
Record Parsed := mkParsed { values : list (list ascii * Z) }.

Definition parse_pm100_line (raw : list Byte.byte) : option Parsed :=
  let text := strip (ascii_decode_ignore raw) in
  match text with
  | [] => None
  | _ =>
    let parts := py_split text in
    match parts with
    | [] => None
    | _ =>
      let grouped :=
        if forallb (fun p => Nat.eqb (length p) 1) parts then
          if negb (Nat.eqb (Nat.modulo (length parts) 4) 0) then None
          else Some (group4 parts)
        else Some parts in
      match grouped with
      | None => None
      | Some parts' =>
          match parse_words parts' with
          | None => None
          | Some words => Some (mkParsed (enumerate_from 0 words))
          end
      end
    end
  end.

(** Encoding of an ASCII text as bytes (test inputs). *)
Definition bytes_of (s : string) : list Byte.byte :=
  map byte_of_ascii (list_ascii_of_string s).

(** Auxiliary definitions used to state properties of the decoder. *)

(** The bytes filter applied by [decode("ascii", errors="ignore")]. *)
Definition is_ascii_byte (b : Byte.byte) : bool := Nat.ltb (Byte.to_nat b) 128.

Definition is_hex (c : ascii) : bool :=
  match hex_digit_value c with Some _ => true | None => false end.

(** [" ".join(ts)] *)
Fixpoint join_sp (ts : list (list ascii)) : list ascii :=
  match ts with
  | [] => []
  | [t] => t
  | t :: r => t ++ " " :: join_sp r
  end.

(** [token[-4:]] *)
Definition last4 (t : list ascii) : list ascii := skipn (List.length t - 4) t.

Definition encode_text (s : list ascii) : list Byte.byte := map byte_of_ascii s.

(** What [parse_pm100_line] does once the stripped text has been split. *)
Definition decode_parts (parts : list (list ascii)) : option Parsed :=
  match parts with
  | [] => None
  | _ =>
      let grouped :=
        if forallb (fun p => Nat.eqb (List.length p) 1) parts then
          if negb (Nat.eqb (Nat.modulo (List.length parts) 4) 0) then None
          else Some (group4 parts)
        else Some parts in
      match grouped with
      | None => None
      | Some parts' =>
          match parse_words parts' with
          | None => None
          | Some words => Some (mkParsed (enumerate_from 0 words))
          end
      end
  end.

End Decoder.

(** ** Connection state and reader loop: [SerialState], [_reader_loop] *)
Module Serial.
Import Decoder.

Inductive Status := Idle | Connecting | Connected | Stopped | Error.

(** [last_value]: the decoder's dictionary after [parsed["timestamp"] = time.time()]. *)
Record Stamped := mkStamped { sv_values : list (list ascii * Z); sv_timestamp : float }.

(** The dataclass [SerialState]. *)
Record SerialState := mkState {
  port : string;
  baudrate : Z;
  status : Status;
  last_error : option string;
  last_value : option Stamped;
  last_seen : option float;
  backoff_seconds : float }.

(** [SerialState()] with the defaults read from the environment. *)
Definition initial_state (default_port : string) (default_baudrate : Z) : SerialState :=
  mkState default_port default_baudrate Idle None None None 1.0%float.

Definition set_port (p : string) (s : SerialState) : SerialState :=
  mkState p (baudrate s) (status s) (last_error s) (last_value s) (last_seen s) (backoff_seconds s).
Definition set_baudrate (b : Z) (s : SerialState) : SerialState :=
  mkState (port s) b (status s) (last_error s) (last_value s) (last_seen s) (backoff_seconds s).
Definition set_status (st : Status) (s : SerialState) : SerialState :=
  mkState (port s) (baudrate s) st (last_error s) (last_value s) (last_seen s) (backoff_seconds s).
Definition set_last_error (e : option string) (s : SerialState) : SerialState :=
  mkState (port s) (baudrate s) (status s) e (last_value s) (last_seen s) (backoff_seconds s).
Definition set_last_value (v : option Stamped) (s : SerialState) : SerialState :=
  mkState (port s) (baudrate s) (status s) (last_error s) v (last_seen s) (backoff_seconds s).
Definition set_last_seen (t : option float) (s : SerialState) : SerialState :=
  mkState (port s) (baudrate s) (status s) (last_error s) (last_value s) t (backoff_seconds s).
Definition set_backoff (b : float) (s : SerialState) : SerialState :=
  mkState (port s) (baudrate s) (status s) (last_error s) (last_value s) (last_seen s) b.

(** [to_health()]: the snapshot of every field (the rounding of
    [backoffSeconds] to 3 decimals is presentation and is left out). *)
Definition to_health (s : SerialState) : SerialState := s.

(** Data of a broadcast: a health snapshot or a decoded sample. *)
Inductive Payload := PHealth (h : SerialState) | PSample (v : Stamped).

(** Effects of the reader thread: [broadcast_fn(event, data)] and [time.sleep(secs)]. *)
Inductive Effect :=
| Broadcast (event : string) (data : Payload)
| Sleep (secs : float).

(** Python's [min(a, b)] on floats: [b] only when [b < a]. *)
Definition py_min (a b : float) : float := if PrimFloat.ltb b a then b else a.

(** Control points of [_reader_loop]: the top of the outer [while], the inner
    read loop, the [except Exception as exc] handler, and the end of the thread. *)
Inductive Pc := AtTop | InRead | InHandler (msg : string) | Done.

Inductive OpenResult := Opened | OpenRaise (msg : string).
Inductive ReadResult := ReadLine (raw : list Byte.byte) | ReadRaise (msg : string).

(** What the outside world answers at one step of the loop: the result of
    [open_serial], of [ser.readline()], and [time.time()]. *)
Record Env := mkEnv { open_result : OpenResult; read_result : ReadResult; now : float }.

Definition status_event (s : SerialState) : Effect :=
  Broadcast "serial:status"%string (PHealth (to_health s)).

(** One block of [_reader_loop], with [stop] the value of [_stop_event.is_set()]
    at the check the block starts with. *)
Definition reader_step (stop : bool) (env : Env) (pc : Pc) (s : SerialState)
  : Pc * SerialState * list Effect :=
  match pc with
  | AtTop =>
      if stop then
        let s1 := set_status Stopped s in
        (Done, s1, [status_event s1])
      else if String.eqb (port s) "" then
        let s1 := set_last_error (Some "No serial port configured"%string)
                    (set_status Error s) in
        (AtTop, s1, [status_event s1; Sleep 1.0%float])
      else
        let s1 := set_status Connecting s in
        match open_result env with
        | Opened =>
            let s2 := set_backoff 1.0%float (set_last_error None (set_status Connected s1)) in
            (InRead, s2, [status_event s1; status_event s2])
        | OpenRaise msg => (InHandler msg, s1, [status_event s1])
        end
  | InRead =>
      if stop then (AtTop, s, [])
      else
        match read_result env with
        | ReadRaise msg => (InHandler msg, s, [])
        | ReadLine [] => (InRead, s, [])
        | ReadLine raw =>
            match parse_pm100_line raw with
            | None => (InRead, s, [])
            | Some parsed =>
                let v := mkStamped (values parsed) (now env) in
                let s1 := set_last_seen (Some (sv_timestamp v)) (set_last_value (Some v) s) in
                (InRead, s1, [Broadcast "serial:update"%string (PSample v)])
            end
        end
  | InHandler msg =>
      let s1 := set_last_error (Some msg) (set_status Error s) in
      (AtTop, set_backoff (py_min (backoff_seconds s1 * 1.5)%float 30.0%float) s1,
       [status_event s1; Sleep (backoff_seconds s1)])
  | Done => (Done, s, [])
  end.

(** Several blocks in a row, the effects in order. *)
Fixpoint run_reader (stops : list (bool * Env)) (pc : Pc) (s : SerialState)
  : Pc * SerialState * list Effect :=
  match stops with
  | [] => (pc, s, [])
  | (stop, env) :: r =>
      let '(pc1, s1, out1) := reader_step stop env pc s in
      let '(pc2, s2, out2) := run_reader r pc1 s1 in
      (pc2, s2, out1 ++ out2)
  end.

End Serial.

(** ** Command dispatcher and message path: [handle_command], [handle_message], [main] *)
Module Dispatch.
Import Serial.
Local Set Warnings "-register-all".

(** Values produced by [json.loads]: a JSON object is a dictionary whose keys
    are unique (the last duplicate wins in [json.loads]). *)
Inductive PyVal :=
| PyNone
| PyBool (b : bool)
| PyInt (z : Z)
| PyFloat (f : float)
| PyStr (s : string)
| PyList (l : list PyVal)
| PyDict (kv : list (string * PyVal)).

Inductive PyExc :=
| ValueError (msg : string)
| TypeError (msg : string)
| OverflowError (msg : string)
| JSONDecodeError.

Inductive Outcome (A : Type) := Ret (a : A) | Raise (e : PyExc).
Arguments Ret {A} a.
Arguments Raise {A} e.

(** The builtins whose text-level behaviour is not modelled: [str()] of a float,
    list or dict, [int()] of a string (base 10, [None] for its [ValueError]) and
    [int()] of a float. *)
Record Builtins := mkBuiltins {
  str_other : PyVal -> string;
  int_of_str : string -> option Z;
  int_of_float : float -> Outcome Z }.

(** Truth value of a JSON-decoded value ([bool(x)]). *)
Definition truthy (v : PyVal) : bool :=
  match v with
  | PyNone => false
  | PyBool b => b
  | PyInt z => negb (Z.eqb z 0)
  | PyFloat f => negb (PrimFloat.eqb f 0%float)
  | PyStr s => negb (String.eqb s "")
  | PyList l => match l with [] => false | _ => true end
  | PyDict kv => match kv with [] => false | _ => true end
  end.

Definition is_dict (v : PyVal) : bool :=
  match v with PyDict _ => true | _ => false end.

(** [x == "name"] for a JSON value and a string literal. *)
Definition py_eq_str (v : PyVal) (lit : string) : bool :=
  match v with PyStr s => String.eqb s lit | _ => false end.

Fixpoint assoc_get (kv : list (string * PyVal)) (k : string) : option PyVal :=
  match kv with
  | [] => None
  | (k', v) :: r => if String.eqb k' k then Some v else assoc_get r k
  end.

(** [d.get(k)] on a dictionary ([None] when absent). *)
Definition dict_get (v : PyVal) (k : string) : PyVal :=
  match v with
  | PyDict kv => match assoc_get kv k with Some x => x | None => PyNone end
  | _ => PyNone
  end.

(** [message[k]]: [None] stands for the [KeyError] or [TypeError] raised. *)
Definition subscript (v : PyVal) (k : string) : option PyVal :=
  match v with PyDict kv => assoc_get kv k | _ => None end.

Definition py_str (B : Builtins) (v : PyVal) : string :=
  match v with
  | PyStr s => s
  | PyInt z => NilEmpty.string_of_int (Z.to_int z)
  | PyBool true => "True"%string
  | PyBool false => "False"%string
  | PyNone => "None"%string
  | _ => str_other B v
  end.

Definition py_int (B : Builtins) (v : PyVal) : Outcome Z :=
  match v with
  | PyInt z => Ret z
  | PyBool b => Ret (if b then 1 else 0)%Z
  | PyFloat f => int_of_float B f
  | PyStr s =>
      match int_of_str B s with
      | Some z => Ret z
      | None => Raise (ValueError "invalid literal for int() with base 10"%string)
      end
  | _ => Raise (TypeError "int() argument must be a string, a bytes-like object or a real number"%string)
  end.

(** Process-wide state shared by the dispatcher and the reader thread:
    [_state], [_stop_event] and [_serial_thread] (the control point of the
    thread, [None] before the first start). *)
Record Sys := mkSys { st : SerialState; stop_flag : bool; thread : option Pc }.

(** A small state-and-exception monad for the dispatcher. *)
Definition M (A : Type) := Sys -> Outcome A * Sys.
Definition ret {A} (a : A) : M A := fun y => (Ret a, y).
Definition raise {A} (e : PyExc) : M A := fun y => (Raise e, y).
Definition bind {A B} (m : M A) (k : A -> M B) : M B :=
  fun y => match m y with
           | (Ret a, y') => k a y'
           | (Raise e, y') => (Raise e, y')
           end.
Definition get_sys : M Sys := fun y => (Ret y, y).
Definition put_sys (y : Sys) : M unit := fun _ => (Ret tt, y).
Definition lift {A} (o : Outcome A) : M A := fun y => (o, y).
Definition modify_state (f : SerialState -> SerialState) : M unit :=
  fun y => (Ret tt, mkSys (f (st y)) (stop_flag y) (thread y)).

Notation "x <- m ;; k" := (bind m (fun x => k)) (at level 61, m at next level, right associativity).
Notation "m ;; k" := (bind m (fun _ => k)) (at level 61, right associativity).

Definition thread_alive (t : option Pc) : bool :=
  match t with Some Done | None => false | Some _ => true end.

(** [ensure_thread_running]: a new reader thread starts at the top of its loop. *)
Definition ensure_thread_running : M unit :=
  y <- get_sys ;;
  if thread_alive (thread y) then ret tt
  else put_sys (mkSys (st y) false (Some AtTop)).

(** The dictionary [{"ok": ok, "status": _state.to_health()}]. *)
Record Response := mkResponse { ok : bool; status_of : SerialState }.

Definition respond (okv : bool) : M Response :=
  y <- get_sys ;; ret (mkResponse okv (to_health (st y))).

Definition handle_command (B : Builtins) (event data : PyVal) : M Response :=
  if py_eq_str event "start" then
    (if truthy data && is_dict data then
       (if truthy (dict_get data "port") then
          modify_state (set_port (py_str B (dict_get data "port")))
        else ret tt) ;;
       (if truthy (dict_get data "baudrate") then
          b <- lift (py_int B (dict_get data "baudrate")) ;;
          modify_state (set_baudrate b)
        else ret tt)
     else ret tt) ;;
    ensure_thread_running ;;
    respond true
  else if py_eq_str event "stop" then
    y <- get_sys ;;
    put_sys (mkSys (st y) true (thread y)) ;;
    respond true
  else if py_eq_str event "configure" then
    if negb (is_dict data) then
      raise (ValueError "configure payload must be an object"%string)
    else
      y <- get_sys ;;
      let p := dict_get data "port" in
      modify_state (set_port (py_str B (if truthy p then p else PyStr (port (st y))))) ;;
      (if truthy (dict_get data "baudrate") then
         b <- lift (py_int B (dict_get data "baudrate")) ;;
         modify_state (set_baudrate b)
       else ret tt) ;;
      respond true
  else if py_eq_str event "health" then
    respond true
  else
    respond false.

(** [handle_message]: [loaded] is the outcome of [json.loads(data)] ([None]
    for its [JSONDecodeError]); the result lists the responses written with
    [send_message_stdout]. *)
Definition handle_message (B : Builtins) (loaded : option PyVal) : M (list Response) :=
  match loaded with
  | None => ret []
  | Some message =>
      match subscript message "event", subscript message "data" with
      | Some event, Some event_data =>
          if truthy event then
            response <- handle_command B event event_data ;;
            ret [response]
          else ret []
      | _, _ => ret []
      end
  end.

(** How the session of [main] ends: still receiving, or an exception left
    [asyncio.run(wsClient(handle_message))].  [main] only catches
    [json.JSONDecodeError]; any other exception terminates the process. *)
Inductive SessionEnd := Receiving | Terminated (e : PyExc) | BackToStdin.

Definition main_catches (e : PyExc) : bool :=
  match e with JSONDecodeError => true | _ => false end.

(** [receiver]: [handle_message] on each message of the websocket, in order;
    an exception propagates through [receiver], [wsClient] and [asyncio.run]. *)
Fixpoint run_messages (B : Builtins) (msgs : list (option PyVal)) (y : Sys)
  : SessionEnd * list Response * Sys :=
  match msgs with
  | [] => (Receiving, [], y)
  | m :: r =>
      match handle_message B m y with
      | (Ret out, y1) =>
          let '(e, outs, y2) := run_messages B r y1 in (e, out ++ outs, y2)
      | (Raise e, y1) =>
          (if main_catches e then BackToStdin else Terminated e, [], y1)
      end
  end.

(** Steps of the whole process: a block of the reader thread, or one command. *)
Inductive sys_step (B : Builtins) : Sys -> Sys -> Prop :=
| StepReader y pc env pc' s' out :
    thread y = Some pc ->
    reader_step (stop_flag y) env pc (st y) = (pc', s', out) ->
    sys_step B y (mkSys s' (stop_flag y) (Some pc'))
| StepCommand y event data r y' :
    handle_command B event data y = (r, y') ->
    sys_step B y y'.

Inductive reachable (B : Builtins) (y0 : Sys) : Sys -> Prop :=
| reach_init : reachable B y0 y0
| reach_step y y' : reachable B y0 y -> sys_step B y y' -> reachable B y0 y'.

(** The process at start-up: default state, no reader thread. *)
Definition initial_sys (default_port : string) (default_baudrate : Z) : Sys :=
  mkSys (initial_state default_port default_baudrate) false None.

End Dispatch.


(** ** Auxiliary definitions for the properties of the reader loop and dispatcher *)
Module Props.
Import Decoder Serial Dispatch.

(** [status == connected] implies [last_error is None]. *)
Definition inv (s : SerialState) : Prop := status s = Connected -> last_error s = None.

(** A dispatcher computation that leaves [status], [last_error] and
    [backoff_seconds] as they were, whatever it returns or raises. *)
Definition frame {A} (m : M A) : Prop :=
  forall y, let s' := st (snd (m y)) in
    status s' = status (st y) /\ last_error s' = last_error (st y) /\
    backoff_seconds s' = backoff_seconds (st y).

(** The [time.sleep] durations among the effects, in order. *)
Fixpoint sleeps (out : list Effect) : list float :=
  match out with
  | [] => []
  | Sleep b :: r => b :: sleeps r
  | _ :: r => sleeps r
  end.

(** The backoff values reachable from 1.0 under [min(b * 1.5, 30.0)]. *)
Definition backoff_values : list float :=
  [1.0; 1.5; 2.25; 3.375; 5.0625; 7.59375; 11.390625; 17.0859375; 25.62890625; 30.0]%float.

(** An [open_serial] that always raises. *)
Definition failing_open : Env :=
  mkEnv (OpenRaise "could not open port"%string) (ReadLine []) 0%float.

Definition configured_state : SerialState :=
  set_port "/dev/ttyUSB0"%string (initial_state ""%string 57600%Z).

(** Builtins used in concrete runs. *)
Definition sample_builtins : Builtins :=
  mkBuiltins (fun _ => ""%string) (fun _ => None) (fun _ => Raise (ValueError ""%string)).

(** The frame [0068 00AF] as bytes. *)
Definition b_0068_00AF : list Byte.byte := bytes_of "0068 00AF"%string.

End Props.

(** ** The mock PM100 generator: [make_pm100_line]
    (src/extensions/serial-input-python/mock_serial_generator.py) *)
Module Generator.
Import Decoder.

(** An uppercase hex digit, for [0 <= d < 16]. *)
Definition hex_char_upper (d : Z) : ascii :=
  ascii_of_nat (Z.to_nat (if (d <? 10)%Z then 48 + d else 55 + d)%Z).

(** The number of hex digits of [n >= 0] ([0] has one). *)
Definition hex_width (n : Z) : nat := S (Z.to_nat (Z.log2 n / 4)).

(** [format(n, "X")] for [n >= 0]: most significant digit first. *)
Definition hex_upper (n : Z) : list ascii :=
  map (fun i => hex_char_upper ((n / 16 ^ Z.of_nat i) mod 16)%Z) (rev (seq 0 (hex_width n))).

(** [f"{w:04X}"]: uppercase hex, zero-padded to width 4, the sign (if any)
    before the padding. *)
Definition format_04X (w : Z) : list ascii :=
  if (w <? 0)%Z then
    let h := hex_upper (- w) in "-" :: repeat "0" (3 - List.length h) ++ h
  else
    let h := hex_upper w in repeat "0" (4 - List.length h) ++ h.

(** [make_pm100_line(values, trailing_space)]: each value as the 16-bit word
    [v & 0xFFFF], the words space-separated, an optional trailing space, CRLF,
    encoded as ASCII. *)
Definition make_pm100_line (values : list Z) (trailing_space : bool) : list Byte.byte :=
  let words := map (fun v => Z.land v 65535) values in
  let line := join_sp (map format_04X words) in
  let line := if trailing_space then line ++ [" "] else line in
  encode_text (line ++ ["013"; "010"]).

(** The four upper-case hex digits of a 16-bit word, as [%04X] prints it. *)
Definition digits4 (w : Z) : list ascii :=
  [hex_char_upper (w / 4096); hex_char_upper ((w / 256) mod 16);
   hex_char_upper ((w / 16) mod 16); hex_char_upper (w mod 16)]%Z.

End Generator.

(** ** Start-up path: [loadInitData], [wsClient] and the stdin loop of [main] *)
Module Startup.
Import Decoder Serial Dispatch.

(** The globals [_port], [_token], [_connect_token], [_extension_id], assigned
    together by one tuple assignment; [None] while never assigned. *)
Record InitData := mkInit {
  nl_port : PyVal; nl_token : PyVal; nl_connect_token : PyVal; nl_extension_id : PyVal }.

(** Exceptions that can end [main]: [KeyError] of [itemgetter], the
    [ValueError] of [loadInitData] (its message shows the pair [firstMissing]),
    [NameError] of a global read before assignment, a failed
    [websockets.connect], and an exception escaping a session. *)
Inductive MainExc :=
| KeyError (key : string)
| InitValueError (key : string) (value : PyVal)
| NameError (name : string)
| ConnectionFailed
| Uncaught (e : PyExc).

(** The [log(...)] lines written by this path. *)
Inductive LogLine := LogStarting | LogBadInit | LogInitLoaded | LogConnecting.

Definition init_keys : list string :=
  ["nlPort"; "nlToken"; "nlConnectToken"; "nlExtensionId"]%string.

(** [any((not (firstMissing := i)[1]) for i in zip(keys, values))]: the first
    pair whose value is falsy. *)
Fixpoint first_falsy (pairs : list (string * PyVal)) : option (string * PyVal) :=
  match pairs with
  | [] => None
  | (k, v) :: r => if truthy v then first_falsy r else Some (k, v)
  end.

(** [loadInitData(message)]: the exception raised (if any), the globals after
    the call and the lines logged. *)
Definition load_init_data (message : PyVal) (g : option InitData)
  : option MainExc * option InitData * list LogLine :=
  match message with
  | PyDict kv =>
      match assoc_get kv "nlPort" with
      | None => (Some (KeyError "nlPort"), g, [])
      | Some p =>
      match assoc_get kv "nlToken" with
      | None => (Some (KeyError "nlToken"), g, [])
      | Some t =>
      match assoc_get kv "nlConnectToken" with
      | None => (Some (KeyError "nlConnectToken"), g, [])
      | Some c =>
      match assoc_get kv "nlExtensionId" with
      | None => (Some (KeyError "nlExtensionId"), g, [])
      | Some e =>
          let g' := Some (mkInit p t c e) in
          match first_falsy (combine init_keys [p; t; c; e]) with
          | Some (k, v) => (Some (InitValueError k v), g', [])
          | None => (None, g', [LogInitLoaded])
          end
      end end end end
  | _ => (None, g, [LogBadInit])
  end%string.

(** What [websockets.connect(uri)] gives: a refused connection, or a
    connection that delivers these messages (each the outcome of [json.loads],
    [None] for invalid JSON) and then closes. *)
Inductive WsConn := WsRefused | WsOpen (msgs : list (option PyVal)).

Inductive MainEnd := StdinClosed | Crashed (e : MainExc).

Record MainResult := mkResult {
  outcome : MainEnd; globals : option InitData; final_sys : Sys;
  responses : list Response; logs : list LogLine }.

(** The [for line in sys.stdin] loop of [main]: each line comes with the
    connection [wsClient] would get for it; [loads] is [json.loads] on the
    stripped line ([None] for its [JSONDecodeError]).  [wsClient] reads
    [_port] first, logs, connects and runs [receiver]; [main] catches only
    [json.JSONDecodeError]. *)
Fixpoint main_loop (B : Builtins) (loads : list ascii -> option PyVal)
    (input : list (list ascii * WsConn)) (g : option InitData) (y : Sys) : MainResult :=
  match input with
  | [] => mkResult StdinClosed g y [] []
  | (raw_line, conn) :: rest =>
      match strip raw_line with
      | [] => main_loop B loads rest g y
      | line =>
          match loads line with
          | None => main_loop B loads rest g y
          | Some message =>
              let '(err, g1, l1) := load_init_data message g in
              match err with
              | Some e => mkResult (Crashed e) g1 y [] l1
              | None =>
                  match g1 with
                  | None => mkResult (Crashed (NameError "_port"%string)) g1 y [] l1
                  | Some _ =>
                      match conn with
                      | WsRefused =>
                          mkResult (Crashed ConnectionFailed) g1 y [] (l1 ++ [LogConnecting])
                      | WsOpen msgs =>
                          let '(se, rs, y1) := run_messages B msgs y in
                          match se with
                          | Terminated e =>
                              mkResult (Crashed (Uncaught e)) g1 y1 rs (l1 ++ [LogConnecting])
                          | _ =>
                              let r := main_loop B loads rest g1 y1 in
                              mkResult (outcome r) (globals r) (final_sys r)
                                (rs ++ responses r) (l1 ++ LogConnecting :: logs r)
                          end
                      end
                  end
              end
          end
      end
  end.

(** [main()]: the start-up log line, then the loop, globals not yet assigned. *)
Definition main (B : Builtins) (loads : list ascii -> option PyVal)
    (input : list (list ascii * WsConn)) (y0 : Sys) : MainResult :=
  let r := main_loop B loads input None y0 in
  mkResult (outcome r) (globals r) (final_sys r) (responses r) (LogStarting :: logs r).

(** A line [main] skips: blank after [strip()], or not valid JSON. *)
Definition skipped (loads : list ascii -> option PyVal) (l : list ascii) : Prop :=
  strip l = [] \/ loads (strip l) = None.

End Startup.

(** ** Auxiliary definitions for further properties of the reader and dispatcher *)
Module ExtraProps.
Import Decoder Serial Dispatch.



(** The state after one iteration of the loop with no port configured. *)
Definition no_port_state (s : SerialState) : SerialState :=
  set_last_error (Some "No serial port configured"%string) (set_status Error s).

End ExtraProps.

(** ** Properties of the decoder *)
Module DecoderFacts.
Import Decoder.

Lemma split_lstrip s : split_ws_aux [] (lstrip s) = split_ws_aux [] s.
Proof.
  induction s as [|c r IH]; [reflexivity|].
  cbn [lstrip split_ws_aux]. destruct (py_isspace c) eqn:E;
    [rewrite IH | cbn [split_ws_aux]; rewrite E]; reflexivity.
Qed.

Lemma lstrip_prefix l :
  exists pre, l = pre ++ lstrip l /\ Forall (fun c => py_isspace c = true) pre.
Proof.
  induction l as [|c r [pre [Hl Hp]]]; [exists []; auto|].
  cbn [lstrip]. destruct (py_isspace c) eqn:E.
  - exists (c :: pre). split; [simpl; f_equal; exact Hl | constructor; auto].
  - exists []. auto.
Qed.

Lemma split_snoc_ws cur s c :
  py_isspace c = true -> split_ws_aux cur (s ++ [c]) = split_ws_aux cur s.
Proof.
  intros Hc. revert cur. induction s as [|d r IH]; intros cur.
  - cbn [app split_ws_aux]. rewrite Hc. destruct cur; reflexivity.
  - cbn [app split_ws_aux]. destruct (py_isspace d); [destruct cur; rewrite IH|rewrite IH]; reflexivity.
Qed.

Lemma split_app_ws cur s w :
  Forall (fun c => py_isspace c = true) w ->
  split_ws_aux cur (s ++ w) = split_ws_aux cur s.
Proof.
  intros Hw. revert s. induction Hw as [|c w Hc Hw IH]; intros s.
  - rewrite app_nil_r. reflexivity.
  - replace (s ++ c :: w) with ((s ++ [c]) ++ w) by (rewrite <- app_assoc; reflexivity).
    rewrite IH. apply split_snoc_ws; exact Hc.
Qed.

Lemma py_split_strip s : py_split (strip s) = py_split s.
Proof.
  unfold py_split, strip.
  destruct (lstrip_prefix (rev (lstrip s))) as [pre [Hl Hp]].
  rewrite <- (split_lstrip s).
  rewrite <- (split_app_ws [] (rev (lstrip (rev (lstrip s)))) (rev pre)).
  - f_equal. rewrite <- rev_app_distr, <- Hl, rev_involutive. reflexivity.
  - apply Forall_rev. exact Hp.
Qed.

(** [parse_pm100_line] only depends on the whitespace tokens of the decoded text. *)
Lemma parse_pm100_line_tokens raw :
  parse_pm100_line raw = decode_parts (py_split (ascii_decode_ignore raw)).
Proof.
  unfold parse_pm100_line.
  rewrite <- (py_split_strip (ascii_decode_ignore raw)).
  destruct (strip (ascii_decode_ignore raw)) as [|c r]; reflexivity.
Qed.

Lemma hex_digit_facts c d : hex_digit_value c = Some d ->
  (0 <= d <= 15)%Z /\ py_isspace c = false /\ Ascii.eqb c "-" = false /\
  Ascii.eqb c "+" = false /\ Ascii.eqb c "x" = false /\ Ascii.eqb c "X" = false /\
  Ascii.eqb c "_" = false /\ Ascii.eqb c ":" = false /\ Ascii.eqb c "," = false.
Proof.
  destruct c as [[] [] [] [] [] [] [] []]; cbv -[Z.le]; intros H;
    try discriminate; injection H as <-; repeat split; first [reflexivity | lia].
Qed.

Lemma is_hex_value c : is_hex c = true -> exists d, hex_digit_value c = Some d.
Proof. unfold is_hex. destruct (hex_digit_value c); [eauto | discriminate]. Qed.

Lemma nat_of_ascii_of_byte b : nat_of_ascii (ascii_of_byte b) = Byte.to_nat b.
Proof. destruct b; reflexivity. Qed.

Lemma byte_of_ascii_to_nat c : Byte.to_nat (byte_of_ascii c) = nat_of_ascii c.
Proof. rewrite <- nat_of_ascii_of_byte, ascii_of_byte_of_ascii. reflexivity. Qed.

Lemma decode_ascii_lt raw :
  Forall (fun c => nat_of_ascii c < 128) (ascii_decode_ignore raw).
Proof.
  unfold ascii_decode_ignore. induction raw as [|b r IH]; [constructor|].
  cbn [filter]. destruct (Nat.ltb (Byte.to_nat b) 128) eqn:E; [|exact IH].
  cbn [map]. constructor; [|exact IH].
  rewrite nat_of_ascii_of_byte. apply Nat.ltb_lt. exact E.
Qed.

Lemma decode_encode s :
  Forall (fun c => nat_of_ascii c < 128) s -> ascii_decode_ignore (encode_text s) = s.
Proof.
  unfold ascii_decode_ignore, encode_text. induction 1 as [|c s Hc Hs IH]; [reflexivity|].
  cbn [map filter]. rewrite byte_of_ascii_to_nat.
  replace (Nat.ltb (nat_of_ascii c) 128) with true by (symmetry; apply Nat.ltb_lt; exact Hc).
  cbn [map]. rewrite ascii_of_byte_of_ascii, IH. reflexivity.
Qed.

Lemma length_rev_nonempty (l : list ascii) : l <> [] -> rev l <> [].
Proof.
  intros Hl H. apply Hl. apply (f_equal (@List.length ascii)) in H.
  rewrite length_rev in H. destruct l; [reflexivity | discriminate].
Qed.

Lemma split_ws_aux_tokens (P : ascii -> Prop) cur s :
  Forall (fun c => P c /\ py_isspace c = false) cur -> Forall P s ->
  Forall (fun t => t <> [] /\ Forall (fun c => P c /\ py_isspace c = false) t)
         (split_ws_aux cur s).
Proof.
  revert cur. induction s as [|c r IH]; intros cur Hcur Hs; cbn [split_ws_aux].
  - destruct cur as [|a l]; constructor; [|constructor].
    split; [apply length_rev_nonempty; discriminate | apply Forall_rev; exact Hcur].
  - inversion Hs as [|? ? Hc Hr]; subst. destruct (py_isspace c) eqn:E.
    + destruct cur as [|a l]; [apply IH; auto|].
      constructor; [|apply IH; auto].
      split; [apply length_rev_nonempty; discriminate | apply Forall_rev; exact Hcur].
    + apply IH; [constructor; auto | exact Hr].
Qed.

Lemma split_tokens_ascii raw :
  Forall (fun t => t <> [] /\
     Forall (fun c => nat_of_ascii c < 128 /\ py_isspace c = false) t)
    (py_split (ascii_decode_ignore raw)).
Proof. apply split_ws_aux_tokens; [constructor | apply decode_ascii_lt]. Qed.

Lemma split_app_nospace cur t rest :
  Forall (fun c => py_isspace c = false) t ->
  split_ws_aux cur (t ++ rest) = split_ws_aux (rev t ++ cur) rest.
Proof.
  intros Ht. revert cur. induction Ht as [|c t Hc Ht IH]; intros cur; [reflexivity|].
  cbn [app split_ws_aux]. rewrite Hc, IH. cbn [rev]. rewrite <- app_assoc. reflexivity.
Qed.

Lemma py_split_join ts :
  Forall (fun t => t <> [] /\ Forall (fun c => py_isspace c = false) t) ts ->
  py_split (join_sp ts) = ts.
Proof.
  unfold py_split. induction 1 as [|t r [Hne Ht] Hr IH]; [reflexivity|].
  destruct r as [|t' r'].
  - cbn [join_sp]. transitivity (split_ws_aux [] (t ++ [])); [rewrite app_nil_r; reflexivity|].
    rewrite split_app_nospace by exact Ht. rewrite app_nil_r. cbn [split_ws_aux].
    destruct (rev t) as [|a l] eqn:Er; [exfalso; exact (length_rev_nonempty t Hne Er)|].
    rewrite <- Er, rev_involutive. reflexivity.
  - change (join_sp (t :: t' :: r')) with (t ++ " " :: join_sp (t' :: r')).
    rewrite split_app_nospace by exact Ht. rewrite app_nil_r. cbn [split_ws_aux].
    replace (py_isspace " ") with true by reflexivity.
    destruct (rev t) as [|a l] eqn:Er; [exfalso; exact (length_rev_nonempty t Hne Er)|].
    rewrite <- Er, rev_involutive, IH. reflexivity.
Qed.

Lemma lstrip_nospace l :
  Forall (fun c => py_isspace c = false) l -> lstrip l = l.
Proof. destruct 1 as [|c l Hc _]; [reflexivity|]. cbn [lstrip]. rewrite Hc. reflexivity. Qed.

Lemma strip_nospace l :
  Forall (fun c => py_isspace c = false) l -> strip l = l.
Proof.
  intros H. unfold strip. rewrite (lstrip_nospace l H).
  rewrite lstrip_nospace by (apply Forall_rev; exact H). apply rev_involutive.
Qed.

Lemma py_int_hex4 a b c d :
  forallb is_hex [a; b; c; d] = true ->
  exists w, py_int_base16 [a; b; c; d] = Some w /\ (0 <= w <= 65535)%Z.
Proof.
  cbn [forallb]. rewrite !andb_true_iff. intros (Ha & Hb & Hc & Hd & _).
  destruct (is_hex_value a Ha) as [da Hda], (is_hex_value b Hb) as [db Hdb],
    (is_hex_value c Hc) as [dc Hdc], (is_hex_value d Hd) as [dd Hdd].
  destruct (hex_digit_facts _ _ Hda) as (Ba & Sa & Ma & Pa & _).
  destruct (hex_digit_facts _ _ Hdb) as (Bb & Sb & _ & _ & Xb & XXb & Ub & _).
  destruct (hex_digit_facts _ _ Hdc) as (Bc & Sc & _ & _ & _ & _ & Uc & _).
  destruct (hex_digit_facts _ _ Hdd) as (Bd & Sd & _ & _ & _ & _ & Ud & _).
  unfold py_int_base16.
  rewrite strip_nospace by (repeat constructor; assumption).
  unfold take_sign, skip_hex_prefix.
  rewrite Ma, Pa, Xb, XXb, andb_false_r.
  cbn -[hex_digit_value Ascii.eqb].
  rewrite Hda. cbn [digits_us]. rewrite Ub, Hdb. cbn [digits_us]. rewrite Uc, Hdc. cbn [digits_us]. rewrite Ud, Hdd. cbn [digits_us option_map].
  eexists; split; [reflexivity | lia].
Qed.

Lemma parse_words_hex4 toks :
  Forall (fun t => List.length t = 4 /\ forallb is_hex t = true) toks ->
  exists ws, parse_words toks = Some ws /\ List.length ws = List.length toks /\
    Forall (fun w => 0 <= w <= 65535)%Z ws.
Proof.
  induction 1 as [|t r [Hlen Hhex] Hr (ws & IHp & IHl & IHb)]; [exists []; auto|].
  destruct t as [|a [|b [|c [|d [|e t]]]]]; try discriminate Hlen.
  destruct (py_int_hex4 a b c d Hhex) as (w & Hw & Hb).
  cbn [forallb] in Hhex. rewrite !andb_true_iff in Hhex.
  destruct Hhex as (Ha & Hb' & Hc & Hd & _).
  destruct (is_hex_value a Ha) as [da Hda], (is_hex_value b Hb') as [db Hdb],
    (is_hex_value c Hc) as [dc Hdc], (is_hex_value d Hd) as [dd Hdd].
  exists (w :: ws). cbn [parse_words].
  rewrite strip_nospace by (repeat constructor;
    first [apply (hex_digit_facts _ _ Hda) | apply (hex_digit_facts _ _ Hdb)
          | apply (hex_digit_facts _ _ Hdc) | apply (hex_digit_facts _ _ Hdd)]).
  cbn -[py_int_base16]. rewrite Hw, IHp. cbn. auto.
Qed.

Lemma enumerate_from_keys i ws :
  map fst (enumerate_from i ws) = map str_of_nat (seq i (List.length ws)).
Proof.
  revert i. induction ws as [|w r IH]; intros i; [reflexivity|].
  cbn. rewrite IH. reflexivity.
Qed.

Lemma enumerate_from_values i ws : map snd (enumerate_from i ws) = ws.
Proof.
  revert i. induction ws as [|w r IH]; intros i; [reflexivity|].
  cbn. rewrite IH. reflexivity.
Qed.

Lemma forallb_len1_false (parts : list (list ascii)) :
  ~ Forall (fun t => List.length t = 1) parts ->
  forallb (fun p => Nat.eqb (List.length p) 1) parts = false.
Proof.
  intros H. destruct (forallb _ parts) eqn:E; [|reflexivity].
  exfalso. apply H. rewrite forallb_forall in E. apply Forall_forall.
  intros t Ht. apply Nat.eqb_eq, E, Ht.
Qed.

Lemma forallb_len1_true (parts : list (list ascii)) :
  Forall (fun t => List.length t = 1) parts ->
  forallb (fun p => Nat.eqb (List.length p) 1) parts = true.
Proof.
  intros H. apply forallb_forall. intros t Ht.
  apply Nat.eqb_eq. exact (proj1 (Forall_forall _ _) H t Ht).
Qed.

Lemma group4_chars (Q : ascii -> Prop) :
  forall parts, Forall (Forall Q) parts -> Forall (Forall Q) (group4 parts).
Proof.
  fix IH 1. intros [|a [|b [|c [|d r]]]] H; cbn [group4].
  - constructor.
  - constructor; [|constructor]. cbn. rewrite app_nil_r.
    inversion H; assumption.
  - constructor; [|constructor]. cbn. rewrite app_nil_r.
    inversion H as [|? ? Ha Hr]; inversion Hr; apply Forall_app; split; auto.
  - constructor; [|constructor]. cbn. rewrite app_nil_r.
    inversion H as [|? ? Ha Hr]; inversion Hr as [|? ? Hb Hr'];
    inversion Hr'; apply Forall_app; split; [|apply Forall_app; split]; auto.
  - inversion H as [|? ? Ha X1]; inversion X1 as [|? ? Hb X2];
    inversion X2 as [|? ? Hc X3]; inversion X3 as [|? ? Hd X4].
    constructor; [|apply IH; exact X4].
    apply Forall_app; split; [|apply Forall_app; split; [|apply Forall_app; split]]; auto.
Qed.

Lemma group4_lengths :
  forall parts, Forall (fun t => List.length t = 1) parts ->
  Nat.modulo (List.length parts) 4 = 0 ->
  Forall (fun g => List.length g = 4) (group4 parts).
Proof.
  fix IH 1. intros [|a [|b [|c [|d r]]]] H Hm; cbn [group4]; try discriminate Hm.
  - constructor.
  - inversion H as [|? ? Ha X1]; inversion X1 as [|? ? Hb X2];
    inversion X2 as [|? ? Hc X3]; inversion X3 as [|? ? Hd X4].
    constructor.
    + rewrite !length_app. lia.
    + apply IH; [exact X4|].
      replace (List.length (a :: b :: c :: d :: r)) with (List.length r + 1 * 4) in Hm
        by (cbn; lia).
      rewrite Nat.Div0.mod_add in Hm. exact Hm.
Qed.


Lemma Forall_skipn {A} (P : A -> Prop) n l : Forall P l -> Forall P (skipn n l).
Proof.
  revert l. induction n as [|n IH]; intros l Hl; [exact Hl|].
  destruct Hl; [constructor | apply IH; exact Hl].
Qed.

Lemma length_last4 t : 4 <= List.length t -> List.length (last4 t) = 4.
Proof. intros H. unfold last4. rewrite length_skipn. lia. Qed.

Lemma token_last4 t : 4 <= List.length t ->
  (if Nat.ltb 4 (List.length t) then skipn (List.length t - 4) t else t) = last4 t.
Proof.
  intros H. unfold last4. destruct (Nat.ltb 4 (List.length t)) eqn:E; [reflexivity|].
  apply Nat.ltb_ge in E. replace (List.length t - 4) with 0 by lia. reflexivity.
Qed.

Lemma parse_words_cons_long t r :
  4 <= List.length t -> Forall (fun c => py_isspace c = false) t ->
  parse_words (t :: r) =
    match py_int_base16 (last4 t) with
    | None => None
    | Some w => option_map (cons w) (parse_words r)
    end.
Proof.
  intros Hl Hs. cbn [parse_words]. rewrite (strip_nospace t Hs).
  replace (Nat.ltb (List.length t) 4) with false by (symmetry; apply Nat.ltb_ge; lia).
  rewrite token_last4 by exact Hl. reflexivity.
Qed.

Lemma parse_words_short toks :
  Forall (Forall (fun c => py_isspace c = false)) toks ->
  (exists t, In t toks /\ List.length t < 4) -> parse_words toks = None.
Proof.
  induction 1 as [|t r Ht Hr IH]; intros (u & Hin & Hu); [destruct Hin|].
  cbn [parse_words]. rewrite (strip_nospace t Ht).
  destruct Hin as [<-|Hin].
  - replace (Nat.ltb (List.length t) 4) with true by (symmetry; apply Nat.ltb_lt; lia).
    reflexivity.
  - destruct (Nat.ltb (List.length t) 4); [reflexivity|].
    destruct (py_int_base16 _); [|reflexivity].
    rewrite IH by eauto. reflexivity.
Qed.

Lemma parse_words_last4 toks :
  Forall (fun t => 4 <= List.length t /\ Forall (fun c => py_isspace c = false) t) toks ->
  parse_words (map last4 toks) = parse_words toks.
Proof.
  induction 1 as [|t r [Hl Hs] Hr IH]; [reflexivity|].
  cbn [map]. rewrite (parse_words_cons_long t r Hl Hs).
  rewrite parse_words_cons_long.
  - unfold last4 at 1. rewrite length_last4 by exact Hl. cbn [Nat.sub skipn].
    rewrite IH. reflexivity.
  - rewrite length_last4 by exact Hl. lia.
  - apply Forall_skipn. exact Hs.
Qed.

Lemma decode_parts_multi parts :
  parts <> [] -> ~ Forall (fun t => List.length t = 1) parts ->
  decode_parts parts =
    option_map (fun ws => mkParsed (enumerate_from 0 ws)) (parse_words parts).
Proof.
  intros Hne Hn. destruct parts as [|p ps]; [contradiction|].
  unfold decode_parts. rewrite (forallb_len1_false _ Hn).
  destruct (parse_words (p :: ps)); reflexivity.
Qed.

Lemma decode_parts_single parts :
  parts <> [] -> Forall (fun t => List.length t = 1) parts ->
  decode_parts parts =
    if negb (Nat.eqb (Nat.modulo (List.length parts) 4) 0) then None
    else option_map (fun ws => mkParsed (enumerate_from 0 ws)) (parse_words (group4 parts)).
Proof.
  intros Hne H1. destruct parts as [|p ps]; [contradiction|].
  unfold decode_parts. rewrite (forallb_len1_true _ H1).
  destruct (negb _); [reflexivity|].
  destruct (parse_words (group4 (p :: ps))); reflexivity.
Qed.

Lemma Forall_join_sp (P : ascii -> Prop) ts :
  P " " -> Forall (Forall P) ts -> Forall P (join_sp ts).
Proof.
  intros Hsp. induction 1 as [|t r Ht Hr IH]; [constructor|].
  destruct r as [|t' r']; [exact Ht|].
  change (join_sp (t :: t' :: r')) with (t ++ " " :: join_sp (t' :: r')).
  apply Forall_app. split; [exact Ht | constructor; [exact Hsp | exact IH]].
Qed.

(** Decoding the bytes of [" ".join(ts)] sees exactly the tokens [ts]. *)
Lemma parse_encode_join ts :
  Forall (fun t => t <> [] /\
     Forall (fun c => nat_of_ascii c < 128 /\ py_isspace c = false) t) ts ->
  parse_pm100_line (encode_text (join_sp ts)) = decode_parts ts.
Proof.
  intros H. rewrite parse_pm100_line_tokens, decode_encode.
  - rewrite py_split_join; [reflexivity|].
    eapply Forall_impl; [|exact H]. intros t [Hne Ht]. split; [exact Hne|].
    eapply Forall_impl; [|exact Ht]. intros c [_ Hc]. exact Hc.
  - apply Forall_join_sp; [cbv; lia|].
    eapply Forall_impl; [|exact H]. intros t [_ Ht].
    eapply Forall_impl; [|exact Ht]. intros c [Hc _]. exact Hc.
Qed.

Lemma In_lstrip c l : In c l -> py_isspace c = false -> In c (lstrip l).
Proof.
  induction l as [|h t IH]; intros Hin Hc; [destruct Hin|].
  cbn [lstrip]. destruct (py_isspace h) eqn:E; [|exact Hin].
  destruct Hin as [<-|Hin]; [congruence | apply IH; assumption].
Qed.

Lemma In_strip c l : In c l -> py_isspace c = false -> In c (strip l).
Proof.
  intros Hin Hc. unfold strip. apply (proj1 (in_rev _ _)).
  apply In_lstrip; [|exact Hc]. apply (proj1 (in_rev _ _)).
  apply In_lstrip; assumption.
Qed.

Lemma digits_us_sep acc b s c :
  In c s -> (c = ":" \/ c = ",") -> digits_us acc b s = None.
Proof.
  intros Hin Hc. revert acc b. induction s as [|h r IH]; intros acc b; [destruct Hin|].
  destruct Hin as [<-|Hin].
  - destruct Hc as [-> | ->]; reflexivity.
  - cbn [digits_us]. destruct (Ascii.eqb h "_").
    + destruct b; [reflexivity | apply IH; exact Hin].
    + destruct (hex_digit_value h); [apply IH; exact Hin | reflexivity].
Qed.

(** A [:] or [,] anywhere in a token makes [int(token, 16)] raise. *)
Lemma py_int_base16_sep s c :
  In c s -> (c = ":" \/ c = ",") -> py_int_base16 s = None.
Proof.
  intros Hin Hc.
  assert (Hsp : py_isspace c = false) by (destruct Hc as [-> | ->]; reflexivity).
  assert (Hs1 : In c (strip s)) by (apply In_strip; assumption).
  unfold py_int_base16.
  destruct (take_sign (strip s)) as [sign s2] eqn:Es.
  assert (Hs2 : In c s2).
  { unfold take_sign in Es. destruct (strip s) as [|h r]; [destruct Hs1|].
    destruct (Ascii.eqb h "-") eqn:Em; [|destruct (Ascii.eqb h "+") eqn:Ep];
      injection Es as <- <-; try exact Hs1;
      (destruct Hs1 as [<-|Hs1]; [|exact Hs1]);
      [apply Ascii.eqb_eq in Em | apply Ascii.eqb_eq in Ep]; subst;
      destruct Hc; discriminate. }
  assert (Hs3 : In c (skip_hex_prefix s2)).
  { unfold skip_hex_prefix. destruct s2 as [|z [|x r]]; try exact Hs2.
    destruct (Ascii.eqb z "0" && (Ascii.eqb x "x" || Ascii.eqb x "X")) eqn:Ez;
      [|exact Hs2].
    apply andb_true_iff in Ez as [Ez Ex]. apply Ascii.eqb_eq in Ez. subst z.
    destruct Hs2 as [<-|[<-|Hs2]]; [destruct Hc; discriminate| |].
    - apply orb_true_iff in Ex as [Ex|Ex]; apply Ascii.eqb_eq in Ex; subst;
        destruct Hc; discriminate.
    - destruct r as [|u r']; [exact Hs2|].
      destruct (Ascii.eqb u "_") eqn:Eu; [|exact Hs2].
      apply Ascii.eqb_eq in Eu. subst u.
      destruct Hs2 as [<-|Hs2]; [destruct Hc; discriminate | exact Hs2]. }
  destruct (skip_hex_prefix s2) as [|h r]; [reflexivity|].
  destruct Hs3 as [<-|Hs3].
  - destruct Hc as [-> | ->]; reflexivity.
  - destruct (hex_digit_value h); [|reflexivity].
    rewrite (digits_us_sep _ _ _ c Hs3 Hc). reflexivity.
Qed.

Lemma filter_idem {A} (f : A -> bool) l : filter f (filter f l) = filter f l.
Proof.
  induction l as [|x r IH]; [reflexivity|].
  cbn [filter]. destruct (f x) eqn:E; [cbn [filter]; rewrite E, IH|]; auto.
Qed.

End DecoderFacts.

Module DecoderClaims.
Import Decoder DecoderFacts Props.

(** C2: a line of [n >= 1] whitespace-separated tokens of exactly four hex
    characters decodes to a [values] map whose keys are ["0"], ..., [str(n-1)]
    in this insertion order, and whose words all lie in [[0, 65535]]. *)
Theorem hex_words_keys_and_range raw toks :
  py_split (ascii_decode_ignore raw) = toks -> toks <> [] ->
  Forall (fun t => List.length t = 4 /\ forallb is_hex t = true) toks ->
  exists vals, parse_pm100_line raw = Some (mkParsed vals) /\
    map fst vals = map str_of_nat (seq 0 (List.length toks)) /\
    Forall (fun w => 0 <= w <= 65535)%Z (map snd vals).
Proof.
  intros Hsplit Hne H4.
  destruct (parse_words_hex4 toks H4) as (ws & Hws & Hlen & Hb).
  exists (enumerate_from 0 ws). split; [|split].
  - rewrite parse_pm100_line_tokens, Hsplit, decode_parts_multi.
    + rewrite Hws. reflexivity.
    + exact Hne.
    + intros H1. destruct toks as [|t r]; [contradiction|].
      inversion H1 as [|? ? Ht1 _]. inversion H4 as [|? ? [Ht4 _] _]. lia.
  - rewrite enumerate_from_keys, Hlen. reflexivity.
  - rewrite enumerate_from_values. exact Hb.
Qed.

Lemma hex_words_keys_and_range_witness :
  exists vals, parse_pm100_line b_0068_00AF = Some (mkParsed vals) /\
    map fst vals = map str_of_nat (seq 0 2) /\
    Forall (fun w => 0 <= w <= 65535)%Z (map snd vals).
Proof.
  apply (hex_words_keys_and_range b_0068_00AF
           [["0"; "0"; "6"; "8"]; ["0"; "0"; "A"; "F"]]);
    [reflexivity | discriminate | repeat constructor].
Defined.


Lemma not_all_len1 (t : list ascii) r :
  List.length t <> 1 -> ~ Forall (fun u => List.length u = 1) (t :: r).
Proof. intros Ht H. inversion H. contradiction. Qed.

(** C4: token shapes.  Single-character tokens are regrouped four at a time
    (decoding like the line of the regrouped words), and a count that is not a
    multiple of 4 is unparseable; otherwise a token shorter than four characters
    makes the line unparseable, and longer tokens are cut to their trailing four
    characters before [int(token, 16)]; with the examples of the spec. *)
Theorem token_shapes :
  (forall raw toks, py_split (ascii_decode_ignore raw) = toks ->
     Forall (fun t => List.length t = 1) toks ->
     Nat.modulo (List.length toks) 4 = 0 ->
     parse_pm100_line raw = parse_pm100_line (encode_text (join_sp (group4 toks)))) /\
  (forall raw toks, py_split (ascii_decode_ignore raw) = toks ->
     Forall (fun t => List.length t = 1) toks ->
     Nat.modulo (List.length toks) 4 <> 0 ->
     parse_pm100_line raw = None) /\
  (forall raw toks, py_split (ascii_decode_ignore raw) = toks ->
     ~ Forall (fun t => List.length t = 1) toks ->
     (exists t, In t toks /\ List.length t < 4) ->
     parse_pm100_line raw = None) /\
  (forall raw toks, py_split (ascii_decode_ignore raw) = toks ->
     Forall (fun t => 4 <= List.length t) toks ->
     parse_pm100_line raw = parse_pm100_line (encode_text (join_sp (map last4 toks)))) /\
  parse_pm100_line (bytes_of "0 0 6 8"%string) = parse_pm100_line (bytes_of "0068"%string) /\
  parse_pm100_line (bytes_of "0068"%string) = Some (mkParsed [(["0"], 104%Z)]) /\
  parse_pm100_line (bytes_of "0 0 6"%string) = None /\
  parse_pm100_line (bytes_of "A0068"%string) = Some (mkParsed [(["0"], 104%Z)]) /\
  parse_pm100_line (bytes_of "06"%string) = None.
Proof.
  split; [|split; [|split; [|split]]].
  - intros raw toks Hsplit H1 Hm.
    pose proof (split_tokens_ascii raw) as Htok. rewrite Hsplit in Htok.
    rewrite parse_encode_join.
    2:{ apply Forall_forall. intros g Hg. split.
        - pose proof (proj1 (Forall_forall _ _) (group4_lengths toks H1 Hm) g Hg) as Hl.
          intros ->. discriminate Hl.
        - refine (proj1 (Forall_forall _ _) (group4_chars _ toks _) g Hg).
          eapply Forall_impl; [|exact Htok]. intros t [_ Ht]. exact Ht. }
    rewrite parse_pm100_line_tokens, Hsplit.
    destruct toks as [|a [|b [|c [|d r]]]]; try discriminate Hm; [reflexivity|].
    rewrite decode_parts_single by (discriminate || exact H1).
    rewrite Hm. cbn [negb Nat.eqb group4].
    rewrite decode_parts_multi; [reflexivity | discriminate |].
    apply not_all_len1.
    inversion H1 as [|? ? Ha X1]; inversion X1 as [|? ? Hb X2];
      inversion X2 as [|? ? Hc X3]; inversion X3 as [|? ? Hd X4].
    rewrite !length_app. lia.
  - intros raw toks Hsplit H1 Hm.
    rewrite parse_pm100_line_tokens, Hsplit.
    destruct toks as [|t r]; [reflexivity|].
    rewrite decode_parts_single by (discriminate || exact H1).
    destruct (Nat.eqb _ 0) eqn:E; [apply Nat.eqb_eq in E; contradiction | reflexivity].
  - intros raw toks Hsplit Hn (u & Hin & Hu).
    pose proof (split_tokens_ascii raw) as Htok. rewrite Hsplit in Htok.
    rewrite parse_pm100_line_tokens, Hsplit, decode_parts_multi.
    + rewrite parse_words_short; [reflexivity| |eauto].
      eapply Forall_impl; [|exact Htok]. intros t [_ Ht].
      eapply Forall_impl; [|exact Ht]. intros c [_ Hc]. exact Hc.
    + intros ->. destruct Hin.
    + exact Hn.
  - intros raw toks Hsplit H4.
    pose proof (split_tokens_ascii raw) as Htok. rewrite Hsplit in Htok.
    rewrite parse_encode_join.
    2:{ apply Forall_forall. intros g Hg. apply in_map_iff in Hg as (t & <- & Ht).
        pose proof (proj1 (Forall_forall _ _) H4 t Ht) as Hl.
        pose proof (proj1 (Forall_forall _ _) Htok t Ht) as [_ Hc]. split.
        - intros He. apply (f_equal (@List.length ascii)) in He.
          rewrite length_last4 in He by exact Hl. discriminate He.
        - apply Forall_skipn. exact Hc. }
    rewrite parse_pm100_line_tokens, Hsplit.
    destruct toks as [|t r]; [reflexivity|].
    inversion H4 as [|? ? Ht4 _].
    rewrite !decode_parts_multi.
    + rewrite parse_words_last4; [reflexivity|].
      apply Forall_forall. intros u Hu. split.
      * exact (proj1 (Forall_forall _ _) H4 u Hu).
      * pose proof (proj1 (Forall_forall _ _) Htok u Hu) as [_ Hc].
        eapply Forall_impl; [|exact Hc]. intros c [_ Hs]. exact Hs.
    + discriminate.
    + apply not_all_len1. cbn [map]. rewrite length_last4 by exact Ht4. lia.
    + discriminate.
    + apply not_all_len1. lia.
  - repeat split; reflexivity.
Qed.

Lemma token_shapes_witness :
  parse_pm100_line (bytes_of "0 0 6 8"%string) =
    parse_pm100_line (encode_text (join_sp (group4 [["0"]; ["0"]; ["6"]; ["8"]]))) /\
  parse_pm100_line (bytes_of "A0068 00AF"%string) =
    parse_pm100_line (encode_text (join_sp (map last4 [["A"; "0"; "0"; "6"; "8"]; ["0"; "0"; "A"; "F"]]))).
Proof.
  split.
  - apply (proj1 token_shapes); [reflexivity | repeat constructor | reflexivity].
  - apply (proj1 (proj2 (proj2 (proj2 token_shapes))));
      [reflexivity | repeat constructor; cbn; lia].
Defined.


(** C1 (counterexample): the [id:value] line ["a:1.5"] yields no sample at
    all, and ["pi:3.14159"] yields a hex-word map, not [{id, value}]. *)
Lemma key_value_line_not_decoded :
  parse_pm100_line (bytes_of "a:1.5"%string) = None /\
  parse_pm100_line (bytes_of "pi:3.14159"%string) = Some (mkParsed [(["0"], 16729%Z)]).
Proof. split; reflexivity. Qed.

(** C1 (amended): the decoder has no key-value format.  An ASCII line
    [<id><sep><value>] with [sep] one of [:] [,] and no whitespace is one
    hex-word token: it is unparseable when [<value>] has at most three
    characters, and otherwise decodes exactly as the line [<value>] alone
    (the trailing four characters). *)
Theorem key_value_lines_hex_rules (key v : list ascii) (sep : ascii) :
  (sep = ":" \/ sep = ",") ->
  Forall (fun c => nat_of_ascii c < 128 /\ py_isspace c = false) (key ++ v) ->
  (List.length v <= 3 -> parse_pm100_line (encode_text (key ++ sep :: v)) = None) /\
  (4 <= List.length v ->
     parse_pm100_line (encode_text (key ++ sep :: v)) = parse_pm100_line (encode_text v)).
Proof.
  intros Hsep Hkv.
  assert (Hs : nat_of_ascii sep < 128 /\ py_isspace sep = false)
    by (destruct Hsep as [-> | ->]; split; [cbv; lia | reflexivity | cbv; lia | reflexivity]).
  apply Forall_app in Hkv as [Hk Hv].
  assert (Ht : Forall (fun c => nat_of_ascii c < 128 /\ py_isspace c = false) (key ++ sep :: v))
    by (apply Forall_app; split; [exact Hk | constructor; assumption]).
  assert (Hne : key ++ sep :: v <> []) by (destruct key; discriminate).
  assert (Hns : Forall (fun c => py_isspace c = false) (key ++ sep :: v))
    by (eapply Forall_impl; [|exact Ht]; intros c [_ Hc]; exact Hc).
  assert (Hparse : parse_pm100_line (encode_text (key ++ sep :: v)) =
                   decode_parts [key ++ sep :: v])
    by (apply (parse_encode_join [key ++ sep :: v]); repeat constructor; assumption).
  rewrite Hparse. split.
  - intros Hv3.
    destruct (Nat.eq_dec (List.length (key ++ sep :: v)) 1) as [E1|E1].
    + rewrite decode_parts_single by (discriminate || (constructor; [exact E1 | constructor])).
      reflexivity.
    + rewrite decode_parts_multi by (discriminate || (apply not_all_len1; exact E1)).
      destruct (Nat.lt_ge_cases (List.length (key ++ sep :: v)) 4) as [L|L].
      * rewrite parse_words_short; [reflexivity | repeat constructor; exact Hns |].
        exists (key ++ sep :: v). split; [left; reflexivity | exact L].
      * rewrite (parse_words_cons_long _ _ L Hns).
        rewrite (py_int_base16_sep _ sep); [reflexivity | | exact Hsep].
        unfold last4. rewrite skipn_app. apply in_or_app. right.
        rewrite length_app. cbn [List.length].
        replace (List.length key + S (List.length v) - 4 - List.length key) with 0 by lia.
        left. reflexivity.
  - intros Hv4.
    assert (Hvne : v <> []) by (intros ->; cbn in Hv4; lia).
    change (encode_text v) with (encode_text (join_sp [v])).
    rewrite (parse_encode_join [v]) by (repeat constructor; assumption).
    rewrite !decode_parts_multi by (discriminate || (apply not_all_len1;
      rewrite ?length_app; cbn [List.length]; lia)).
    assert (Hv' : Forall (fun c => py_isspace c = false) v)
      by (eapply Forall_impl; [|exact Hv]; intros c [_ Hc]; exact Hc).
    rewrite (parse_words_cons_long v [] Hv4 Hv').
    rewrite parse_words_cons_long by (exact Hns || (rewrite length_app; cbn; lia)).
    replace (last4 (key ++ sep :: v)) with (last4 v); [reflexivity|].
    unfold last4. rewrite skipn_app, (@skipn_all2 _ _ key) by (rewrite length_app; cbn; lia).
    rewrite length_app. cbn [List.length app].
    replace (List.length key + S (List.length v) - 4 - List.length key)
      with (S (List.length v - 4)) by lia.
    reflexivity.
Qed.

Ltac ascii_tokens :=
  cbn [app]; repeat (apply Forall_cons; [split; [apply Nat.ltb_lt | ]; reflexivity |]);
  apply Forall_nil.

Lemma key_value_lines_hex_rules_witness :
  parse_pm100_line (encode_text (["a"] ++ ":" :: ["1"; "."; "5"])) = None /\
  parse_pm100_line (encode_text (["p"; "i"] ++ ":" :: ["3"; "."; "1"; "4"; "1"; "5"; "9"])) =
    parse_pm100_line (encode_text ["3"; "."; "1"; "4"; "1"; "5"; "9"]).
Proof.
  split.
  - refine (proj1 (key_value_lines_hex_rules ["a"] ["1"; "."; "5"] ":" _ _) _);
      [left; reflexivity | ascii_tokens | cbn; lia].
  - refine (proj2 (key_value_lines_hex_rules ["p"; "i"] ["3"; "."; "1"; "4"; "1"; "5"; "9"] ":" _ _) _);
      [left; reflexivity | ascii_tokens | cbn; lia].
Defined.

(** C10: [parse_pm100_line raw] equals [parse_pm100_line] of [raw] with every
    byte >= 0x80 deleted; the function is total (the [ValueError] of [int] is
    caught and modelled by [None]).  Example: [b"\xff0068 00AF"]. *)
Theorem decode_drops_non_ascii raw :
  parse_pm100_line raw = parse_pm100_line (filter is_ascii_byte raw) /\
  parse_pm100_line (Byte.xff :: b_0068_00AF) = parse_pm100_line b_0068_00AF /\
  parse_pm100_line b_0068_00AF = Some (mkParsed [(["0"], 104%Z); (["1"], 175%Z)]).
Proof.
  split; [|split; reflexivity].
  assert (E : ascii_decode_ignore (filter is_ascii_byte raw) = ascii_decode_ignore raw)
    by (unfold ascii_decode_ignore, is_ascii_byte; rewrite filter_idem; reflexivity).
  unfold parse_pm100_line. rewrite E. reflexivity.
Qed.

End DecoderClaims.

(** ** Properties of the reader loop and the dispatcher *)
Module SerialFacts.
Import Decoder Serial Dispatch Props.

(** The dispatcher never writes [status], [last_error] or [backoff_seconds]. *)
Lemma handle_command_frame B event data : frame (handle_command B event data).
Proof.
  intros y. unfold handle_command, ensure_thread_running, respond, bind, ret, raise,
    get_sys, put_sys, lift, modify_state.
  repeat (cbn [st snd fst set_port set_baudrate status last_error backoff_seconds];
    match goal with
    | |- context [if ?b then _ else _] => destruct b
    | |- context [match ?x with Ret _ => _ | Raise _ => _ end] => destruct x
    end); cbn; auto.
Qed.

Lemma reader_step_inv stop env pc s :
  inv s -> inv (snd (fst (reader_step stop env pc s))).
Proof.
  unfold inv. intros H. destruct pc as [| |msg|]; cbn [reader_step].
  - destruct stop; [cbn; discriminate|].
    destruct (String.eqb (port s) ""); [cbn; discriminate|].
    destruct (open_result env); cbn; [reflexivity | discriminate].
  - destruct stop; [exact H|].
    destruct (read_result env) as [raw|msg]; [|exact H].
    destruct raw as [|b r]; [exact H|].
    destruct (parse_pm100_line (b :: r)); exact H.
  - cbn. discriminate.
  - exact H.
Qed.

Lemma reader_step_backoff stop env pc s :
  let b' := backoff_seconds (snd (fst (reader_step stop env pc s))) in
  b' = backoff_seconds s \/ b' = 1.0%float \/
  b' = py_min (backoff_seconds s * 1.5)%float 30.0%float.
Proof.
  destruct pc as [| |msg|]; cbn [reader_step].
  - destruct stop; [cbn; auto|].
    destruct (String.eqb (port s) ""); [cbn; auto|].
    destruct (open_result env); cbn; auto.
  - destruct stop; [cbn; auto|].
    destruct (read_result env) as [raw|msg]; [|cbn; auto].
    destruct raw as [|b r]; [cbn; auto|].
    destruct (parse_pm100_line (b :: r)); cbn; auto.
  - cbn. auto.
  - cbn. auto.
Qed.

Ltac in_list := repeat (first [left; reflexivity | right]).

Lemma backoff_values_closed b :
  In b backoff_values -> In (py_min (b * 1.5)%float 30.0%float) backoff_values.
Proof.
  intros H. repeat destruct H as [<-|H]; [..|destruct H]; vm_compute; in_list.
Qed.

Lemma backoff_values_bounds b :
  In b backoff_values -> PrimFloat.leb 1.0 b = true /\ PrimFloat.leb b 30.0 = true.
Proof.
  intros H. repeat destruct H as [<-|H]; [..|destruct H]; split; reflexivity.
Qed.

Lemma reachable_inv_backoff B y0 y :
  reachable B y0 y -> inv (st y0) -> In (backoff_seconds (st y0)) backoff_values ->
  inv (st y) /\ In (backoff_seconds (st y)) backoff_values.
Proof.
  intros Hr Hi Hb. induction Hr as [|y y' Hr IH Hs]; [auto|].
  destruct IH as [IHi IHb]. destruct Hs as [y pc env pc' s' out Ht Hstep | y ev d r y' Hc].
  - cbn [st]. pose proof (reader_step_inv (stop_flag y) env pc (st y) IHi) as Hi'.
    pose proof (reader_step_backoff (stop_flag y) env pc (st y)) as Hb'.
    rewrite Hstep in Hi', Hb'. cbn in Hi', Hb'. split; [exact Hi'|].
    destruct Hb' as [E|[E|E]]; rewrite E; [exact IHb | left; reflexivity |].
    apply backoff_values_closed. exact IHb.
  - destruct (handle_command_frame B ev d y) as (E1 & E2 & E3).
    rewrite Hc in E1, E2, E3. cbn [snd] in E1, E2, E3.
    split; [unfold inv; rewrite E1, E2; exact IHi | rewrite E3; exact IHb].
Qed.

End SerialFacts.


(** ** Claims about the reader loop and the dispatcher *)
Module SerialClaims.
Import Decoder Serial Dispatch Props SerialFacts.

(** C3: backoff of the reader loop.  The [except] block of [_reader_loop]
    (entered after a failed open and after a failed read alike) sleeps the
    current backoff and then sets it to [min(backoff * 1.5, 30.0)]; twenty-two
    blocks against a port that never opens sleep 1.0, 1.5, 2.25, 3.375, ...,
    25.62890625, 30.0, 30.0; a successful open sets it to 1.0; and in every
    state reachable from start-up, by reader blocks and commands interleaved,
    [1.0 <= backoff <= 30.0]. *)
Theorem backoff_behaviour :
  (forall stop env msg s,
      let '(pc', s', out) := reader_step stop env (InHandler msg) s in
      pc' = AtTop /\ sleeps out = [backoff_seconds s] /\
      backoff_seconds s' = py_min (backoff_seconds s * 1.5)%float 30.0%float) /\
  (forall env s msg, port s <> ""%string -> open_result env = OpenRaise msg ->
      fst (fst (reader_step false env AtTop s)) = InHandler msg) /\
  (forall env s msg, read_result env = ReadRaise msg ->
      reader_step false env InRead s = (InHandler msg, s, [])) /\
  sleeps (snd (run_reader (repeat (false, failing_open) 22) AtTop configured_state)) =
    [1.0; 1.5; 2.25; 3.375; 5.0625; 7.59375; 11.390625; 17.0859375; 25.62890625;
     30.0; 30.0]%float /\
  (forall env s, port s <> ""%string -> open_result env = Opened ->
      backoff_seconds (snd (fst (reader_step false env AtTop s))) = 1.0%float) /\
  (forall B p b y, reachable B (initial_sys p b) y ->
      PrimFloat.leb 1.0 (backoff_seconds (st y)) = true /\
      PrimFloat.leb (backoff_seconds (st y)) 30.0 = true).
Proof.
  split; [intros stop env msg s; cbn; auto|].
  split.
  { intros env s msg Hp Ho. cbn [reader_step].
    rewrite (proj2 (String.eqb_neq _ _) Hp), Ho. reflexivity. }
  split; [intros env s msg Hr; cbn [reader_step]; rewrite Hr; reflexivity|].
  split; [vm_compute; reflexivity|].
  split.
  { intros env s Hp Ho. cbn [reader_step].
    rewrite (proj2 (String.eqb_neq _ _) Hp), Ho. reflexivity. }
  intros B p b y Hr.
  apply backoff_values_bounds.
  refine (proj2 (reachable_inv_backoff B _ y Hr _ _)); cbn; [discriminate | left; reflexivity].
Qed.

(** C5: [configure] with a payload that is not a dictionary raises
    [ValueError] before any assignment: the process state is returned as it was. *)
Theorem configure_non_object B data y :
  is_dict data = false ->
  handle_command B (PyStr "configure") data y =
    (Raise (ValueError "configure payload must be an object"%string), y).
Proof.
  intros H. unfold handle_command. cbn [py_eq_str String.eqb Ascii.eqb Bool.eqb].
  rewrite H. reflexivity.
Qed.

Lemma configure_non_object_witness :
  is_dict (PyInt 5) = false /\
  handle_command sample_builtins (PyStr "configure") (PyInt 5) (initial_sys "COM3" 9600) =
    (Raise (ValueError "configure payload must be an object"%string), initial_sys "COM3" 9600).
Proof.
  split; [reflexivity|].
  apply configure_non_object. reflexivity.
Defined.

(** C6: the message [{"event": "configure", "data": 5}] makes [handle_command]
    raise [ValueError]; [handle_message] does not catch it, [receiver],
    [wsClient] and [asyncio.run] pass it on and [main] catches only
    [json.JSONDecodeError]: the session ends with the exception, no response
    is written for this request, and the following [health] request is never
    handled. *)
Theorem configure_error_escapes B y :
  run_messages B
    [Some (PyDict [("event"%string, PyStr "configure"); ("data"%string, PyInt 5)]);
     Some (PyDict [("event"%string, PyStr "health"); ("data"%string, PyNone)])] y =
  (Terminated (ValueError "configure payload must be an object"%string), [], y).
Proof. reflexivity. Qed.

(** C7: an event other than ["start"], ["stop"], ["configure"] and ["health"]
    is answered with [{"ok": False, "status": _state.to_health()}] and leaves
    the process state as it was. *)
Theorem unknown_event_nack B ev d y :
  ~ In ev [PyStr "start"; PyStr "stop"; PyStr "configure"; PyStr "health"] ->
  handle_command B ev d y = (Ret (mkResponse false (st y)), y).
Proof.
  intros Hn.
  assert (Hs : forall lit,
             In (PyStr lit) [PyStr "start"; PyStr "stop"; PyStr "configure"; PyStr "health"] ->
             py_eq_str ev lit = false).
  { intros lit Hin. destruct ev; try reflexivity. cbn [py_eq_str].
    apply String.eqb_neq. intros <-. exact (Hn Hin). }
  unfold handle_command.
  rewrite (Hs "start"%string), (Hs "stop"%string), (Hs "configure"%string),
    (Hs "health"%string) by (cbn; tauto).
  reflexivity.
Qed.

Lemma unknown_event_nack_witness :
  ~ In (PyStr "reset") [PyStr "start"; PyStr "stop"; PyStr "configure"; PyStr "health"] /\
  handle_command sample_builtins (PyStr "reset") PyNone (initial_sys "COM3" 9600) =
    (Ret (mkResponse false (st (initial_sys "COM3" 9600))), initial_sys "COM3" 9600).
Proof.
  assert (Hn : ~ In (PyStr "reset") [PyStr "start"; PyStr "stop"; PyStr "configure"; PyStr "health"]).
  { cbn. intros [H|[H|[H|[H|[]]]]]; discriminate. }
  split; [exact Hn|].
  apply unknown_event_nack. exact Hn.
Defined.

(** C8: [status == connected] implies [last_error is None]: every block of the
    reader loop and every command preserves it, and it holds in every state
    reachable from start-up. *)
Theorem connected_no_error :
  (forall stop env pc s, inv s -> inv (snd (fst (reader_step stop env pc s)))) /\
  (forall B ev d y, inv (st y) -> inv (st (snd (handle_command B ev d y)))) /\
  (forall B p b y, reachable B (initial_sys p b) y -> inv (st y)).
Proof.
  split; [exact reader_step_inv|].
  split.
  { intros B ev d y H. destruct (handle_command_frame B ev d y) as (E1 & E2 & _).
    unfold inv. rewrite E1, E2. exact H. }
  intros B p b y Hr.
  refine (proj1 (reachable_inv_backoff B _ y Hr _ _)); cbn; [discriminate | left; reflexivity].
Qed.

(** C9: a line that [parse_pm100_line] rejects is skipped: the reader stays in
    its read loop with the state unchanged and nothing broadcast. *)
Theorem unparseable_line_dropped env raw s :
  read_result env = ReadLine raw ->
  parse_pm100_line raw = None ->
  reader_step false env InRead s = (InRead, s, []).
Proof.
  intros Hr Hp. cbn [reader_step]. rewrite Hr.
  destruct raw as [|b r]; [reflexivity|]. rewrite Hp. reflexivity.
Qed.

Lemma unparseable_line_dropped_witness :
  read_result (mkEnv Opened (ReadLine (bytes_of "06")) 0%float) = ReadLine (bytes_of "06") /\
  parse_pm100_line (bytes_of "06") = None /\
  reader_step false (mkEnv Opened (ReadLine (bytes_of "06")) 0%float) InRead configured_state =
    (InRead, configured_state, []).
Proof.
  split; [reflexivity|]. split; [vm_compute; reflexivity|].
  apply (unparseable_line_dropped _ (bytes_of "06")); [reflexivity | vm_compute; reflexivity].
Defined.

End SerialClaims.

(** ** Facts about the decoder on generated frames, its value range and count *)
Module DecoderExtraFacts.
Import Decoder DecoderFacts Generator.

Ltac zlia := zify; Z.div_mod_to_equations; lia.

Lemma hex_char_upper_facts d : (0 <= d < 16)%Z ->
  hex_digit_value (hex_char_upper d) = Some d /\ nat_of_ascii (hex_char_upper d) < 128.
Proof.
  intros Hd.
  assert (E : (d = 0 \/ d = 1 \/ d = 2 \/ d = 3 \/ d = 4 \/ d = 5 \/ d = 6 \/ d = 7 \/
              d = 8 \/ d = 9 \/ d = 10 \/ d = 11 \/ d = 12 \/ d = 13 \/ d = 14 \/ d = 15)%Z)
    by zlia.
  repeat destruct E as [->|E]; subst; split; try reflexivity; cbv; zlia.
Qed.

(** The four hex digits of a 16-bit word, most significant first. *)
Lemma format_04X_word w : (0 <= w < 65536)%Z -> format_04X w = digits4 w.
Proof.
  intros Hw. unfold format_04X, digits4.
  replace (w <? 0)%Z with false by (symmetry; apply Z.ltb_ge; zlia).
  unfold hex_upper, hex_width.
  assert (Hl : ((w < 16 /\ Z.log2 w / 4 = 0) \/ (16 <= w < 256 /\ Z.log2 w / 4 = 1) \/
               (256 <= w < 4096 /\ Z.log2 w / 4 = 2) \/ (4096 <= w /\ Z.log2 w / 4 = 3))%Z).
  { destruct (Z.eq_dec w 0) as [->|Hn]; [left; split; reflexivity|].
    assert (Hp : (0 < w)%Z) by zlia.
    pose proof (proj1 (Z.log2_lt_pow2 w 16 Hp) ltac:(zlia)) as U.
    destruct (Z.lt_ge_cases w 16) as [H1|H1].
    { left. split; [exact H1|].
      pose proof (proj1 (Z.log2_lt_pow2 w 4 Hp) ltac:(zlia)). pose proof (Z.log2_nonneg w). zlia. }
    pose proof (proj1 (Z.log2_le_pow2 w 4 Hp) ltac:(zlia)).
    destruct (Z.lt_ge_cases w 256) as [H2|H2].
    { right; left. split; [zlia|].
      pose proof (proj1 (Z.log2_lt_pow2 w 8 Hp) ltac:(zlia)). zlia. }
    pose proof (proj1 (Z.log2_le_pow2 w 8 Hp) ltac:(zlia)).
    destruct (Z.lt_ge_cases w 4096) as [H3|H3].
    { right; right; left. split; [zlia|].
      pose proof (proj1 (Z.log2_lt_pow2 w 12 Hp) ltac:(zlia)). zlia. }
    pose proof (proj1 (Z.log2_le_pow2 w 12 Hp) ltac:(zlia)).
    right; right; right. split; [zlia|]. zlia. }
  destruct Hl as [[H1 ->]|[[H1 ->]|[[H1 ->]|[H1 ->]]]]; simpl.
  - replace (w / 4096)%Z with 0%Z by zlia. replace ((w / 256) mod 16)%Z with 0%Z by zlia.
    replace ((w / 16) mod 16)%Z with 0%Z by zlia. rewrite Z.div_1_r. reflexivity.
  - replace (w / 4096)%Z with 0%Z by zlia. replace ((w / 256) mod 16)%Z with 0%Z by zlia.
    rewrite Z.div_1_r. reflexivity.
  - replace (w / 4096)%Z with 0%Z by zlia. rewrite Z.div_1_r. reflexivity.
  - change (Z.pow_pos 16 3) with 4096%Z. change (Z.pow_pos 16 2) with 256%Z.
    change (Z.pow_pos 16 1) with 16%Z.
    replace ((w / 4096) mod 16)%Z with (w / 4096)%Z by zlia. rewrite Z.div_1_r. reflexivity.
Qed.

Lemma py_int_hex4_value a b c d da db dc dd :
  hex_digit_value a = Some da -> hex_digit_value b = Some db ->
  hex_digit_value c = Some dc -> hex_digit_value d = Some dd ->
  py_int_base16 [a; b; c; d] = Some (((da * 16 + db) * 16 + dc) * 16 + dd)%Z.
Proof.
  intros Hda Hdb Hdc Hdd.
  destruct (hex_digit_facts _ _ Hda) as (Ba & Sa & Ma & Pa & _).
  destruct (hex_digit_facts _ _ Hdb) as (Bb & Sb & _ & _ & Xb & XXb & Ub & _).
  destruct (hex_digit_facts _ _ Hdc) as (Bc & Sc & _ & _ & _ & _ & Uc & _).
  destruct (hex_digit_facts _ _ Hdd) as (Bd & Sd & _ & _ & _ & _ & Ud & _).
  unfold py_int_base16.
  rewrite strip_nospace by (repeat constructor; assumption).
  unfold take_sign, skip_hex_prefix.
  rewrite Ma, Pa, Xb, XXb, andb_false_r.
  cbn -[hex_digit_value Ascii.eqb].
  rewrite Hda. cbn [digits_us]. rewrite Ub, Hdb. cbn [digits_us]. rewrite Uc, Hdc.
  cbn [digits_us]. rewrite Ud, Hdd. cbn [digits_us option_map].
  f_equal. zlia.
Qed.

Lemma digits4_facts w : (0 <= w < 65536)%Z ->
  py_int_base16 (digits4 w) = Some w /\
  Forall (fun c => nat_of_ascii c < 128 /\ py_isspace c = false) (digits4 w) /\
  List.length (digits4 w) = 4.
Proof.
  intros Hw.
  destruct (hex_char_upper_facts (w / 4096) ltac:(zlia)) as [Ha La].
  destruct (hex_char_upper_facts ((w / 256) mod 16) ltac:(zlia)) as [Hb Lb].
  destruct (hex_char_upper_facts ((w / 16) mod 16) ltac:(zlia)) as [Hc Lc].
  destruct (hex_char_upper_facts (w mod 16) ltac:(zlia)) as [Hd Ld].
  split; [|split; [|reflexivity]].
  - unfold digits4. rewrite (py_int_hex4_value _ _ _ _ _ _ _ _ Ha Hb Hc Hd). f_equal. zlia.
  - unfold digits4.
    repeat apply Forall_cons; try apply Forall_nil; split; try assumption;
      first [ exact (proj1 (proj2 (hex_digit_facts _ _ Ha)))
            | exact (proj1 (proj2 (hex_digit_facts _ _ Hb)))
            | exact (proj1 (proj2 (hex_digit_facts _ _ Hc)))
            | exact (proj1 (proj2 (hex_digit_facts _ _ Hd))) ].
Qed.

Lemma land_word v : (0 <= Z.land v 65535 < 65536)%Z.
Proof.
  change 65535%Z with (Z.ones 16). rewrite Z.land_ones by zlia.
  pose proof (Z.mod_pos_bound v (2 ^ 16) ltac:(zlia)). zlia.
Qed.

Lemma parse_words_digits4 ws :
  Forall (fun w => 0 <= w < 65536)%Z ws -> parse_words (map digits4 ws) = Some ws.
Proof.
  induction 1 as [|w r Hw Hr IH]; [reflexivity|].
  destruct (digits4_facts w Hw) as (Hv & Hc & Hl).
  cbn [map]. rewrite parse_words_cons_long.
  - unfold last4. rewrite Hl. cbn [Nat.sub skipn]. rewrite Hv, IH. reflexivity.
  - zlia.
  - eapply Forall_impl; [|exact Hc]. intros c [_ H]. exact H.
Qed.

Lemma length_lstrip s : List.length (lstrip s) <= List.length s.
Proof.
  induction s as [|c r IH]; [reflexivity|]. cbn [lstrip].
  destruct (py_isspace c); cbn [List.length]; lia.
Qed.

Lemma length_strip s : List.length (strip s) <= List.length s.
Proof.
  unfold strip. rewrite length_rev.
  pose proof (length_lstrip (rev (lstrip s))). rewrite length_rev in H.
  pose proof (length_lstrip s). lia.
Qed.

Lemma take_sign_length s sign s2 : take_sign s = (sign, s2) ->
  (sign = 1%Z /\ List.length s2 <= List.length s) \/
  (sign = (-1)%Z /\ List.length s2 + 1 <= List.length s).
Proof.
  unfold take_sign. destruct s as [|c r]; intros H.
  - injection H as <- <-. left. split; reflexivity.
  - destruct (Ascii.eqb c "-"); [|destruct (Ascii.eqb c "+")];
      injection H as <- <-; cbn [List.length]; [right | left | left]; split; lia.
Qed.

Lemma skip_hex_prefix_length s : List.length (skip_hex_prefix s) <= List.length s.
Proof.
  unfold skip_hex_prefix. destruct s as [|z [|x r]]; cbn [List.length]; try lia.
  destruct (Ascii.eqb z "0" && (Ascii.eqb x "x" || Ascii.eqb x "X")); [|cbn [List.length]; lia].
  destruct r as [|u r']; [cbn [List.length]; lia|].
  destruct (Ascii.eqb u "_"); cbn [List.length]; lia.
Qed.

Lemma digits_us_bound s : forall acc pu v,
  digits_us acc pu s = Some v -> (0 <= acc)%Z ->
  (0 <= v < (acc + 1) * 16 ^ Z.of_nat (List.length s))%Z.
Proof.
  induction s as [|c r IH]; intros acc pu v H Ha.
  - cbn in H. destruct pu; [discriminate|]. injection H as <-. cbn. lia.
  - cbn [digits_us] in H. cbn [List.length]. rewrite Nat2Z.inj_succ, Z.pow_succ_r by lia.
    pose proof (Z.pow_pos_nonneg 16 (Z.of_nat (List.length r)) ltac:(lia) ltac:(lia)) as P.
    destruct (Ascii.eqb c "_").
    + destruct pu; [discriminate|]. destruct (IH acc true v H Ha). split; [lia | nia].
    + destruct (hex_digit_value c) as [d|] eqn:E; [|discriminate].
      destruct (hex_digit_facts c d E) as [Hd _].
      destruct (IH _ _ _ H ltac:(lia)). split; [lia | nia].
Qed.

(** [int(token, 16)] on a token of at most four characters. *)
Lemma py_int_base16_range s v :
  List.length s <= 4 -> py_int_base16 s = Some v -> (-4095 <= v <= 65535)%Z.
Proof.
  intros Hl H. unfold py_int_base16 in H.
  destruct (take_sign (strip s)) as [sign s2] eqn:Es.
  pose proof (length_strip s) as L1. pose proof (take_sign_length _ _ _ Es) as L2.
  pose proof (skip_hex_prefix_length s2) as L3.
  destruct (skip_hex_prefix s2) as [|c r]; [discriminate|].
  destruct (hex_digit_value c) as [d|] eqn:E; [|discriminate].
  destruct (hex_digit_facts c d E) as [Hd _].
  destruct (digits_us d false r) as [v'|] eqn:Ev; [|discriminate].
  cbn [option_map] in H. injection H as <-.
  destruct (digits_us_bound r d false v' Ev ltac:(lia)) as [B1 B2].
  cbn [List.length] in L3.
  destruct L2 as [[-> L2]|[-> L2]].
  - assert (P : (16 ^ Z.of_nat (List.length r) <= 16 ^ 3)%Z)
      by (apply Z.pow_le_mono_r; lia).
    cbn in P. nia.
  - assert (P : (16 ^ Z.of_nat (List.length r) <= 16 ^ 2)%Z)
      by (apply Z.pow_le_mono_r; lia).
    cbn in P. nia.
Qed.

Lemma parse_words_range parts ws :
  parse_words parts = Some ws -> Forall (fun w => -4095 <= w <= 65535)%Z ws.
Proof.
  revert ws. induction parts as [|p ps IH]; intros ws H.
  - injection H as <-. constructor.
  - cbn [parse_words] in H.
    destruct (Nat.ltb (List.length (strip p)) 4) eqn:L; [discriminate|].
    apply Nat.ltb_ge in L.
    set (t := if Nat.ltb 4 (List.length (strip p))
              then skipn (List.length (strip p) - 4) (strip p) else strip p) in H.
    assert (Lt : List.length t <= 4).
    { unfold t. destruct (Nat.ltb 4 (List.length (strip p))) eqn:E.
      - rewrite length_skipn. lia.
      - apply Nat.ltb_ge in E. exact E. }
    destruct (py_int_base16 t) as [w|] eqn:Ew; [|discriminate].
    destruct (parse_words ps) as [ws'|]; [|discriminate].
    cbn [option_map] in H. injection H as <-.
    constructor; [exact (py_int_base16_range t w Lt Ew) | apply IH; reflexivity].
Qed.

Lemma parse_words_length parts ws :
  parse_words parts = Some ws -> List.length ws = List.length parts.
Proof.
  revert ws. induction parts as [|p ps IH]; intros ws H.
  - injection H as <-. reflexivity.
  - cbn [parse_words] in H.
    destruct (Nat.ltb (List.length (strip p)) 4); [discriminate|].
    destruct (py_int_base16 _); [|discriminate].
    destruct (parse_words ps) as [ws'|]; [|discriminate].
    cbn [option_map] in H. injection H as <-. cbn. f_equal. apply IH. reflexivity.
Qed.

Lemma length_enumerate_from i ws : List.length (enumerate_from i ws) = List.length ws.
Proof. revert i. induction ws as [|w r IH]; intros i; [reflexivity|]. cbn. f_equal. apply IH. Qed.

Lemma group4_length : forall (parts : list (list ascii)),
  Nat.modulo (List.length parts) 4 = 0 ->
  List.length (group4 parts) = List.length parts / 4.
Proof.
  fix IH 1. intros [|a [|b [|c [|d r]]]] H; cbn [group4 List.length] in *.
  - reflexivity.
  - discriminate.
  - discriminate.
  - discriminate.
  - cbn [List.length]. rewrite IH.
    + replace (S (S (S (S (List.length r))))) with (1 * 4 + List.length r) by lia.
      rewrite Nat.div_add_l by lia. reflexivity.
    + replace (S (S (S (S (List.length r))))) with (List.length r + 1 * 4) in H by lia.
      rewrite Nat.Div0.mod_add in H. exact H.
Qed.

(** What a successful [decode_parts] is made of. *)
Lemma decode_parts_some parts p :
  decode_parts parts = Some p ->
  exists ws,
    values p = enumerate_from 0 ws /\
    parse_words (if forallb (fun t => Nat.eqb (List.length t) 1) parts
                 then group4 parts else parts) = Some ws /\
    parts <> [] /\
    (forallb (fun t => Nat.eqb (List.length t) 1) parts = true ->
       Nat.modulo (List.length parts) 4 = 0).
Proof.
  unfold decode_parts. destruct parts as [|q qs]; [discriminate|].
  destruct (forallb _ (q :: qs)) eqn:F.
  - destruct (negb (Nat.eqb (Nat.modulo (List.length (q :: qs)) 4) 0)) eqn:M; [discriminate|].
    destruct (parse_words (group4 (q :: qs))) as [ws|] eqn:P; [|discriminate].
    intros H. injection H as <-. exists ws. repeat split; auto; [discriminate|].
    intros _. apply negb_false_iff, Nat.eqb_eq in M. exact M.
  - destruct (parse_words (q :: qs)) as [ws|] eqn:P; [|discriminate].
    intros H. injection H as <-. exists ws. repeat split; auto; [discriminate|].
    intros; discriminate.
Qed.

End DecoderExtraFacts.

(** ** Further properties of the decoder and the generator *)
Module DecoderExtras.
Import Decoder DecoderFacts Generator DecoderExtraFacts.

(** The frames of the mock generator decode to the words they were built
    from: for every list of integers, with or without the trailing space,
    [parse_pm100_line(make_pm100_line(values))] maps ["i"] to
    [values[i] & 0xFFFF]; an empty list gives the bare CRLF, which is unparseable. *)
Theorem make_pm100_line_roundtrip values trailing_space :
  parse_pm100_line (make_pm100_line values trailing_space) =
  match values with
  | [] => None
  | _ => Some (mkParsed (enumerate_from 0 (map (fun v => Z.land v 65535) values)))
  end.
Proof.
  set (ws := map (fun v => Z.land v 65535) values).
  assert (Hws : Forall (fun w => 0 <= w < 65536)%Z ws).
  { apply Forall_forall. intros w Hin. apply in_map_iff in Hin.
    destruct Hin as (v & <- & _). apply land_word. }
  assert (Htoks : map format_04X ws = map digits4 ws).
  { apply map_ext_in. intros w Hin. apply format_04X_word.
    exact (proj1 (Forall_forall _ _) Hws w Hin). }
  assert (Hok : Forall (fun t => t <> [] /\
                 Forall (fun c => nat_of_ascii c < 128 /\ py_isspace c = false) t)
                (map digits4 ws)).
  { apply Forall_map. eapply Forall_impl; [|exact Hws]. intros w Hw.
    destruct (digits4_facts w Hw) as (_ & Hc & _). split; [discriminate | exact Hc]. }
  unfold make_pm100_line. fold ws. rewrite Htoks.
  set (tail := (if trailing_space then [" "] else []) ++ ["013"; "010"]).
  assert (Hline : (if trailing_space then join_sp (map digits4 ws) ++ [" "]
                   else join_sp (map digits4 ws)) ++ ["013"; "010"] =
                  join_sp (map digits4 ws) ++ tail).
  { unfold tail. destruct trailing_space; [rewrite <- app_assoc|]; reflexivity. }
  rewrite Hline, parse_pm100_line_tokens, decode_encode.
  2:{ apply Forall_app. split.
      - apply Forall_join_sp; [cbv; lia|].
        eapply Forall_impl; [|exact Hok]. intros t [_ Ht].
        eapply Forall_impl; [|exact Ht]. intros c [Hc _]. exact Hc.
      - unfold tail. destruct trailing_space; repeat constructor; cbv; lia. }
  unfold py_split. rewrite split_app_ws.
  2:{ unfold tail. destruct trailing_space; repeat constructor. }
  fold (py_split (join_sp (map digits4 ws))). rewrite py_split_join.
  2:{ eapply Forall_impl; [|exact Hok]. intros t [Hne Ht]. split; [exact Hne|].
      eapply Forall_impl; [|exact Ht]. intros c [_ Hc]. exact Hc. }
  destruct values as [|v vs]; [reflexivity|].
  rewrite decode_parts_multi.
  - rewrite parse_words_digits4 by exact Hws. reflexivity.
  - discriminate.
  - intros H. inversion H as [|t r Ht _]. unfold digits4 in Ht. discriminate.
Qed.

(** Every value the decoder returns lies in [[-4095, 65535]]: [int(token, 16)]
    on the four characters kept of a token accepts a sign and a [0x] prefix,
    so a token such as ["-FFF"] decodes to a negative number; the examples
    show both ends reached and the prefix accepted. *)
Theorem decoded_value_range raw p :
  parse_pm100_line raw = Some p ->
  Forall (fun v => -4095 <= v <= 65535)%Z (map snd (values p)) /\
  parse_pm100_line (bytes_of "-FFF FFFF 0x1F -001") =
    Some (mkParsed [(["0"], (-4095)%Z); (["1"], 65535%Z); (["2"], 31%Z); (["3"], (-1)%Z)]).
Proof.
  intros H. split; [|vm_compute; reflexivity].
  rewrite parse_pm100_line_tokens in H.
  destruct (decode_parts_some _ _ H) as (ws & -> & Hw & _).
  rewrite enumerate_from_values. exact (parse_words_range _ _ Hw).
Qed.

Lemma decoded_value_range_witness :
  parse_pm100_line (bytes_of "-FFF 0068") = Some (mkParsed [(["0"], (-4095)%Z); (["1"], 104%Z)]) /\
  Forall (fun v => -4095 <= v <= 65535)%Z [(-4095)%Z; 104%Z].
Proof.
  assert (H : parse_pm100_line (bytes_of "-FFF 0068") =
              Some (mkParsed [(["0"], (-4095)%Z); (["1"], 104%Z)])) by (vm_compute; reflexivity).
  split; [exact H|].
  exact (proj1 (decoded_value_range _ _ H)).
Defined.

(** A successful decode never has an empty [values] map, and it has one value
    per whitespace-separated token of the ASCII text, or one per four tokens
    when every token is a single character. *)
Theorem decoded_value_count raw p :
  parse_pm100_line raw = Some p ->
  let parts := py_split (ascii_decode_ignore raw) in
  values p <> [] /\
  List.length (values p) =
    if forallb (fun t => Nat.eqb (List.length t) 1) parts
    then List.length parts / 4 else List.length parts.
Proof.
  intros H parts. rewrite parse_pm100_line_tokens in H. fold parts in H.
  destruct (decode_parts_some _ _ H) as (ws & -> & Hw & Hne & Hm).
  rewrite length_enumerate_from, (parse_words_length _ _ Hw).
  assert (E : List.length (if forallb (fun t => Nat.eqb (List.length t) 1) parts
                           then group4 parts else parts) =
              if forallb (fun t => Nat.eqb (List.length t) 1) parts
              then List.length parts / 4 else List.length parts).
  { destruct (forallb _ parts) eqn:F; [apply group4_length, Hm; reflexivity | reflexivity]. }
  rewrite E. split; [|reflexivity].
  intros Hv. apply (f_equal (@List.length _)) in Hv.
  rewrite length_enumerate_from, (parse_words_length _ _ Hw), E in Hv.
  destruct parts as [|q qs]; [contradiction|].
  destruct (forallb _ (q :: qs)) eqn:F; [|discriminate].
  specialize (Hm eq_refl).
  apply Nat.div_small_iff in Hv; [|lia].
  rewrite Nat.mod_small in Hm by exact Hv. cbn [List.length] in Hm. discriminate.
Qed.

Lemma decoded_value_count_witness :
  parse_pm100_line (bytes_of "0 0 6 8 0 0 A F") =
    Some (mkParsed [(["0"], 104%Z); (["1"], 175%Z)]) /\
  (mkParsed [(["0"], 104%Z); (["1"], 175%Z)]).(values) <> [] /\
  List.length (mkParsed [(["0"], 104%Z); (["1"], 175%Z)]).(values) = 8 / 4.
Proof.
  assert (H : parse_pm100_line (bytes_of "0 0 6 8 0 0 A F") =
              Some (mkParsed [(["0"], 104%Z); (["1"], 175%Z)])) by (vm_compute; reflexivity).
  split; [exact H|].
  exact (decoded_value_count _ _ H).
Defined.

End DecoderExtras.

(** ** Further facts about the reader loop and the dispatcher *)
Module SerialExtraFacts.
Import Decoder Serial Dispatch Props ExtraProps.




Lemma no_port_step env s :
  port s = ""%string ->
  reader_step false env AtTop s =
    (AtTop, no_port_state s, [status_event (no_port_state s); Sleep 1.0%float]).
Proof. intros H. cbn [reader_step]. rewrite H. reflexivity. Qed.

Lemma no_port_state_idem s : no_port_state (no_port_state s) = no_port_state s.
Proof. reflexivity. Qed.

Lemma no_port_run envs s :
  port s = ""%string ->
  run_reader (map (fun e => (false, e)) envs) AtTop (no_port_state s) =
    (AtTop, no_port_state s,
     flat_map (fun _ => [status_event (no_port_state s); Sleep 1.0%float]) envs).
Proof.
  intros H. induction envs as [|e r IH]; [reflexivity|].
  cbn [map run_reader]. rewrite no_port_step by exact H.
  rewrite no_port_state_idem, IH. reflexivity.
Qed.

Lemma dict_truthy data k : is_dict data = true -> truthy (dict_get data k) = true ->
  truthy data = true.
Proof. destruct data as [| | | | | |[|kv r]]; cbn; try discriminate; reflexivity. Qed.

End SerialExtraFacts.

(** ** Further properties of the reader loop and the dispatcher *)
Module SerialExtras.
Import Decoder Serial Dispatch Props ExtraProps SerialExtraFacts.

(** With no port configured, every iteration of [_reader_loop] sets status
    [error] and [last_error] to ["No serial port configured"], broadcasts the
    status and sleeps 1.0 s: it never tries to open a port and never changes
    the backoff. *)
Theorem no_port_loop envs s :
  port s = ""%string -> envs <> [] ->
  run_reader (map (fun e => (false, e)) envs) AtTop s =
    (AtTop, no_port_state s,
     flat_map (fun _ => [status_event (no_port_state s); Sleep 1.0%float]) envs) /\
  backoff_seconds (no_port_state s) = backoff_seconds s.
Proof.
  intros H Hne. split; [|reflexivity].
  destruct envs as [|e r]; [contradiction|].
  cbn [map run_reader]. rewrite no_port_step by exact H.
  rewrite no_port_run by exact H. reflexivity.
Qed.

Lemma no_port_loop_witness :
  port (initial_state "" 57600) = ""%string /\ [failing_open; failing_open] <> [] /\
  run_reader (map (fun e => (false, e)) [failing_open; failing_open]) AtTop (initial_state "" 57600) =
    (AtTop, no_port_state (initial_state "" 57600),
     flat_map (fun _ => [status_event (no_port_state (initial_state "" 57600)); Sleep 1.0%float])
       [failing_open; failing_open]).
Proof.
  assert (H : port (initial_state "" 57600) = ""%string) by reflexivity.
  assert (Hn : [failing_open; failing_open] <> []) by discriminate.
  split; [exact H|]. split; [exact Hn|].
  exact (proj1 (no_port_loop _ _ H Hn)).
Defined.

(** Once [_stop_event] is set, the reader thread ends within three blocks
    whatever the port does: it finishes in [Done] with status [stopped], and
    its last effect is the broadcast of that status.  From the top of the loop
    or from the read loop it sleeps no more and only sets the status. *)
Theorem stop_ends_reader pc s e1 e2 e3 :
  let '(pc', s', out) := run_reader [(true, e1); (true, e2); (true, e3)] pc s in
  pc' = Done /\
  (pc <> Done -> status s' = Stopped /\ last out (Sleep 0%float) = status_event s') /\
  (pc = AtTop \/ pc = InRead -> s' = set_status Stopped s /\ sleeps out = []).
Proof.
  destruct pc as [| |msg|]; cbn; repeat split; intros;
    first [ reflexivity | contradiction | destruct H as [H|H]; discriminate ].
Qed.





(** [start] after [stop]: while the old reader thread is still alive, [start]
    neither clears the stop flag nor starts a thread, so a reader at the top
    of its loop ends at its next block although [start] answered; once the
    thread has ended (or was never started), a [start] that does not raise
    clears the flag and starts a new reader at the top of its loop. *)
Theorem start_after_stop B d d' y env :
  let y1 := snd (handle_command B (PyStr "stop") d' y) in
  let '(r, y2) := handle_command B (PyStr "start") d y1 in
  (thread_alive (thread y) = true ->
     stop_flag y2 = true /\ thread y2 = thread y /\
     (thread y = Some AtTop -> fst (fst (reader_step (stop_flag y2) env AtTop (st y2))) = Done)) /\
  (thread_alive (thread y) = false -> (exists resp, r = Ret resp) ->
     stop_flag y2 = false /\ thread y2 = Some AtTop).
Proof.
  cbn zeta. unfold handle_command at 2. cbn [py_eq_str String.eqb Ascii.eqb Bool.eqb andb].
  unfold handle_command. cbn [py_eq_str String.eqb Ascii.eqb Bool.eqb andb].
  unfold ensure_thread_running, respond, bind, ret, raise, get_sys, put_sys, lift, modify_state.
  cbn [snd fst st thread stop_flag].
  repeat (cbn [st snd fst set_port set_baudrate thread stop_flag];
    match goal with
    | |- context [if ?b then _ else _] => destruct b eqn:?
    | |- context [match ?x with Ret _ => _ | Raise _ => _ end] => destruct x
    end); cbn [thread stop_flag st fst snd reader_step];
  split; intros Ha; try congruence;
  first [ repeat split; reflexivity
        | intros [resp Hr]; discriminate
        | intros; split; reflexivity
        | idtac ].
Qed.

End SerialExtras.

(** ** Further properties of the dispatcher and the message path *)
Module DispatchExtras.
Import Decoder Serial Dispatch Props ExtraProps SerialExtraFacts.

(** A truthy [baudrate] that [int()] rejects makes [configure] and [start]
    raise after the port has already been assigned: [configure] leaves the
    new port in place, [start] leaves the new port in place and starts no
    reader thread. *)
Theorem bad_baudrate_keeps_port B data y e :
  is_dict data = true ->
  truthy (dict_get data "baudrate") = true ->
  py_int B (dict_get data "baudrate") = Raise e ->
  handle_command B (PyStr "configure") data y =
    (Raise e,
     mkSys (set_port (py_str B (if truthy (dict_get data "port") then dict_get data "port"
                                else PyStr (port (st y)))) (st y))
           (stop_flag y) (thread y)) /\
  handle_command B (PyStr "start") data y =
    (Raise e,
     mkSys (if truthy (dict_get data "port")
            then set_port (py_str B (dict_get data "port")) (st y) else st y)
           (stop_flag y) (thread y)).
Proof.
  intros Hd Hb He. pose proof (dict_truthy data "baudrate" Hd Hb) as Ht.
  destruct y as [s0 f0 t0].
  split.
  - unfold handle_command. cbn [py_eq_str String.eqb Ascii.eqb Bool.eqb].
    rewrite Hd. cbn [negb]. unfold bind, get_sys, modify_state, lift.
    cbn [st stop_flag thread]. rewrite Hb, He. reflexivity.
  - unfold handle_command. cbn [py_eq_str String.eqb Ascii.eqb Bool.eqb].
    rewrite Hd, Ht. cbn [andb]. unfold bind, ret, modify_state, lift.
    destruct (truthy (dict_get data "port")); cbn [st stop_flag thread];
      rewrite Hb, He; reflexivity.
Qed.

Lemma bad_baudrate_keeps_port_witness :
  let data := PyDict [("port"%string, PyStr "COM9"); ("baudrate"%string, PyStr "fast")] in
  is_dict data = true /\ truthy (dict_get data "baudrate") = true /\
  py_int sample_builtins (dict_get data "baudrate") =
    Raise (ValueError "invalid literal for int() with base 10"%string) /\
  fst (handle_command sample_builtins (PyStr "configure") data (initial_sys "" 57600)) =
    Raise (ValueError "invalid literal for int() with base 10"%string).
Proof.
  cbn zeta.
  assert (H1 : is_dict (PyDict [("port"%string, PyStr "COM9"); ("baudrate"%string, PyStr "fast")]) = true)
    by reflexivity.
  assert (H2 : truthy (dict_get (PyDict [("port"%string, PyStr "COM9");
                                         ("baudrate"%string, PyStr "fast")]) "baudrate") = true)
    by reflexivity.
  assert (H3 : py_int sample_builtins (dict_get (PyDict [("port"%string, PyStr "COM9");
                 ("baudrate"%string, PyStr "fast")]) "baudrate") =
               Raise (ValueError "invalid literal for int() with base 10"%string))
    by reflexivity.
  split; [exact H1|]. split; [exact H2|]. split; [exact H3|].
  rewrite (proj1 (bad_baudrate_keeps_port _ _ (initial_sys "" 57600) _ H1 H2 H3)).
  reflexivity.
Defined.

(** [configure] never starts or stops anything: whatever it returns or
    raises, the stop flag, the reader thread, [status], [last_error],
    [last_value], [last_seen] and the backoff are unchanged; a payload whose
    [port] is missing or falsy keeps the configured port, and one whose
    [baudrate] is missing or falsy keeps the baudrate. *)
Theorem configure_touches_only_target B data y :
  let y' := snd (handle_command B (PyStr "configure") data y) in
  stop_flag y' = stop_flag y /\ thread y' = thread y /\
  status (st y') = status (st y) /\ last_error (st y') = last_error (st y) /\
  last_value (st y') = last_value (st y) /\ last_seen (st y') = last_seen (st y) /\
  backoff_seconds (st y') = backoff_seconds (st y) /\
  (truthy (dict_get data "port") = false -> port (st y') = port (st y)) /\
  (truthy (dict_get data "baudrate") = false -> baudrate (st y') = baudrate (st y)).
Proof.
  cbn zeta. unfold handle_command. cbn [py_eq_str String.eqb Ascii.eqb Bool.eqb].
  destruct (is_dict data); cbn [negb].
  - unfold bind, get_sys, modify_state, lift, respond, ret.
    destruct (truthy (dict_get data "port")) eqn:Hp;
    destruct (truthy (dict_get data "baudrate")) eqn:Hb;
    try destruct (py_int B (dict_get data "baudrate"));
    cbn; repeat split; intros; try discriminate; reflexivity.
  - cbn. repeat split; reflexivity.
Qed.



End DispatchExtras.

(** ** Facts about the start-up path *)
Module StartupFacts.
Import Decoder Serial Dispatch Startup.

Lemma main_loop_skip_app B loads l1 l2 g y :
  Forall (skipped loads) (map fst l1) ->
  main_loop B loads (l1 ++ l2) g y = main_loop B loads l2 g y.
Proof.
  induction l1 as [|[l c] r IH]; intros H; [reflexivity|].
  inversion H as [|x xs Hl Hr]. cbn [app main_loop].
  destruct Hl as [E|E].
  - rewrite E. apply IH. exact Hr.
  - destruct (strip l) as [|a t] eqn:S; [apply IH; exact Hr|].
    rewrite E. apply IH. exact Hr.
Qed.

Lemma main_loop_message B loads line conn rest g y m :
  strip line <> [] -> loads (strip line) = Some m ->
  main_loop B loads ((line, conn) :: rest) g y =
    let '(err, g1, l1) := load_init_data m g in
    match err with
    | Some e => mkResult (Crashed e) g1 y [] l1
    | None =>
        match g1 with
        | None => mkResult (Crashed (NameError "_port"%string)) g1 y [] l1
        | Some _ =>
            match conn with
            | WsRefused => mkResult (Crashed ConnectionFailed) g1 y [] (l1 ++ [LogConnecting])
            | WsOpen msgs =>
                let '(se, rs, y1) := run_messages B msgs y in
                match se with
                | Terminated e => mkResult (Crashed (Uncaught e)) g1 y1 rs (l1 ++ [LogConnecting])
                | _ =>
                    let r := main_loop B loads rest g1 y1 in
                    mkResult (outcome r) (globals r) (final_sys r)
                      (rs ++ responses r) (l1 ++ LogConnecting :: logs r)
                end
            end
        end
    end.
Proof.
  intros Hne Hl. cbn [main_loop].
  destruct (strip line) as [|a t]; [contradiction|]. rewrite Hl. reflexivity.
Qed.

Lemma first_falsy_app pre k v post :
  Forall (fun kv => truthy (snd kv) = true) pre -> truthy v = false ->
  first_falsy (pre ++ (k, v) :: post) = Some (k, v).
Proof.
  induction 1 as [|[k' v'] r Hv Hr IH]; intros Hf.
  - cbn. rewrite Hf. reflexivity.
  - cbn in Hv |- *. rewrite Hv. apply IH. exact Hf.
Qed.

End StartupFacts.

(** ** Properties of the start-up path *)
Module StartupExtras.
Import Decoder Serial Dispatch Props Startup StartupFacts.



(** An init payload object that lacks one of the keys [nlPort], [nlToken],
    [nlConnectToken], [nlExtensionId] ends [main] with the [KeyError] of the
    first missing key in that order, before anything is assigned or
    connected; one that has them all but a falsy value ends [main] with the
    [ValueError] for the first falsy pair, after the four globals have been
    assigned.  Neither error is caught, and no connection is made. *)
Theorem init_payload_errors B loads line conn rest g y kv :
  strip line <> [] -> loads (strip line) = Some (PyDict kv) ->
  (forall pre k post, init_keys = pre ++ k :: post ->
     Forall (fun k' => assoc_get kv k' <> None) pre -> assoc_get kv k = None ->
     main_loop B loads ((line, conn) :: rest) g y = mkResult (Crashed (KeyError k)) g y [] []) /\
  (forall p t c e pre k v post,
     assoc_get kv "nlPort" = Some p -> assoc_get kv "nlToken" = Some t ->
     assoc_get kv "nlConnectToken" = Some c -> assoc_get kv "nlExtensionId" = Some e ->
     combine init_keys [p; t; c; e] = pre ++ (k, v) :: post ->
     Forall (fun kv' => truthy (snd kv') = true) pre -> truthy v = false ->
     main_loop B loads ((line, conn) :: rest) g y =
       mkResult (Crashed (InitValueError k v)) (Some (mkInit p t c e)) y [] []).
Proof.
  intros Hne Hl. rewrite (main_loop_message B loads line conn rest g y _ Hne Hl).
  split.
  - intros pre k post Hk Hpre Hnone. unfold load_init_data. unfold init_keys in Hk.
    destruct pre as [|k1 [|k2 [|k3 [|k4 pre']]]]; cbn [app] in Hk;
      [ | | | | destruct pre'; discriminate];
      injection Hk as Hk; subst;
      repeat match goal with
             | H : Forall _ (_ :: _) |- _ => apply Forall_cons_iff in H as [? ?]
             | H : Forall _ [] |- _ => clear H
             | H : assoc_get kv ?k <> None |- _ =>
                 destruct (assoc_get kv k) eqn:?; [clear H | contradiction]
             end;
      rewrite Hnone; reflexivity.
  - intros p t c e pre k v post Hp Ht Hc He Hcomb Hpre Hf. unfold load_init_data.
    rewrite Hp, Ht, Hc, He, Hcomb, (first_falsy_app pre k v post Hpre Hf). reflexivity.
Qed.

Lemma init_payload_errors_witness :
  let kv := [("nlPort"%string, PyStr "5000"); ("nlToken"%string, PyStr "")] in
  strip ["{"; "}"] <> [] /\ (fun _ : list ascii => Some (PyDict kv)) (strip ["{"; "}"]) = Some (PyDict kv) /\
  main_loop sample_builtins (fun _ => Some (PyDict kv)) [(["{"; "}"], WsRefused)] None (initial_sys "" 57600) =
    mkResult (Crashed (KeyError "nlConnectToken")) None (initial_sys "" 57600) [] [].
Proof.
  cbn zeta.
  assert (H1 : strip ["{"; "}"] <> []) by discriminate.
  assert (H2 : (fun _ : list ascii => Some (PyDict [("nlPort"%string, PyStr "5000");
                                                  ("nlToken"%string, PyStr "")])) (strip ["{"; "}"]) =
               Some (PyDict [("nlPort"%string, PyStr "5000"); ("nlToken"%string, PyStr "")]))
    by reflexivity.
  split; [exact H1|]. split; [exact H2|].
  apply (proj1 (init_payload_errors _ _ _ _ _ _ _ _ H1 H2) ["nlPort"; "nlToken"]%string _ ["nlExtensionId"]%string);
    [reflexivity | repeat constructor; discriminate | reflexivity].
Defined.

(** When the first non-skipped stdin line is valid JSON but not an object,
    [loadInitData] only logs, and [wsClient] then reads the never-assigned
    global [_port]: [main] ends with [NameError] and connects nowhere. *)
Theorem non_object_init_name_error B loads skips line conn rest y m :
  Forall (skipped loads) (map fst skips) ->
  strip line <> [] -> loads (strip line) = Some m -> is_dict m = false ->
  main B loads (skips ++ (line, conn) :: rest) y =
    mkResult (Crashed (NameError "_port")) None y [] [LogStarting; LogBadInit].
Proof.
  intros Hs Hne Hl Hd. unfold main. rewrite (main_loop_skip_app B loads skips _ None y Hs).
  rewrite (main_loop_message B loads line conn rest None y m Hne Hl).
  destruct m; try discriminate; reflexivity.
Qed.

Lemma non_object_init_name_error_witness :
  Forall (skipped (fun l => if (List.length l =? 1)%nat then Some (PyInt 5) else None))
    (map fst [(@nil ascii, WsRefused)]) /\
  strip ["5"] <> [] /\
  (fun l => if (List.length l =? 1)%nat then Some (PyInt 5) else None) (strip ["5"]) = Some (PyInt 5) /\
  is_dict (PyInt 5) = false /\
  main sample_builtins (fun l => if (List.length l =? 1)%nat then Some (PyInt 5) else None)
    ([(@nil ascii, WsRefused)] ++ [(["5"], WsOpen [])]) (initial_sys "" 57600) =
    mkResult (Crashed (NameError "_port")) None (initial_sys "" 57600) [] [LogStarting; LogBadInit].
Proof.
  assert (H0 : Forall (skipped (fun l => if (List.length l =? 1)%nat then Some (PyInt 5) else None))
                 (map fst [(@nil ascii, WsRefused)])).
  { constructor; [left; reflexivity | constructor]. }
  assert (H1 : strip ["5"] <> []) by discriminate.
  assert (H2 : (fun l => if (List.length l =? 1)%nat then Some (PyInt 5) else None) (strip ["5"]) =
               Some (PyInt 5)) by reflexivity.
  assert (H3 : is_dict (PyInt 5) = false) by reflexivity.
  split; [exact H0|]. split; [exact H1|]. split; [exact H2|]. split; [exact H3|].
  exact (non_object_init_name_error _ _ _ _ _ _ _ _ H0 H1 H2 H3).
Defined.

End StartupExtras.
